(** * Kentucky mugshot scraper: the extraction-and-dedup pipeline

    A shallow embedding of [src/scraper.py] (class [KentuckyMugshotScraper])
    and the properties its design document states about it.

    Conventions of the embedding.
    - Python [str] values are Rocq [string]s read as ASCII text: [lower],
      [title], [strip] and [split] act on the ASCII letters and the ASCII
      white space that Python's [str] methods recognise; characters above
      127 are left alone.
    - A record ([Dict] with fifteen string fields) is the Rocq record
      [record].
    - A [set] of record ids is a [gset string]; the cache directory is a
      [gmap] from county names to cache files.
    - Library calls the class makes into [re], [requests] and [bs4] are
      collaborators: the regular-expression engine is a section variable,
      a fetched page is a value of [page_result], a parsed DOM entry is a
      value of [entry].
    - Effects ([logger], [requests.get], [time.sleep], cache and CSV
      writes) are recorded in a trace of [event]s. *)

From Stdlib Require Import Ascii String.
From stdpp Require Import base option list strings gmap sets pretty.

(** ** Python string primitives *)

Module PyStr.

Definition is_upper (c : ascii) : bool :=
  let n := nat_of_ascii c in (65 <=? n)%nat && (n <=? 90)%nat.

Definition is_lower (c : ascii) : bool :=
  let n := nat_of_ascii c in (97 <=? n)%nat && (n <=? 122)%nat.

Definition is_alpha (c : ascii) : bool := is_upper c || is_lower c.

(** [str.isspace] on the ASCII range: TAB, LF, VT, FF, CR, FS, GS, RS,
    US and SPACE. *)
Definition is_space (c : ascii) : bool :=
  let n := nat_of_ascii c in
  ((9 <=? n)%nat && (n <=? 13)%nat) || ((28 <=? n)%nat && (n <=? 32)%nat).

Definition lower_char (c : ascii) : ascii :=
  if is_upper c then ascii_of_nat (nat_of_ascii c + 32) else c.

Definition upper_char (c : ascii) : ascii :=
  if is_lower c then ascii_of_nat (nat_of_ascii c - 32) else c.

(** [s.lower()] *)
Fixpoint lower (s : string) : string :=
  match s with
  | EmptyString => EmptyString
  | String c s' => String (lower_char c) (lower s')
  end.

(** [s.replace(a, b)] for one-character [a] and [b]. *)
Fixpoint replace_char (a b : ascii) (s : string) : string :=
  match s with
  | EmptyString => EmptyString
  | String c s' =>
      String (if Ascii.eqb c a then b else c) (replace_char a b s')
  end.

(** [s.title()]: a letter that follows a non-letter is upper-cased, a
    letter that follows a letter is lower-cased. *)
Fixpoint title_go (prev_cased : bool) (s : string) : string :=
  match s with
  | EmptyString => EmptyString
  | String c s' =>
      String (if is_alpha c
              then (if prev_cased then lower_char c else upper_char c)
              else c)
             (title_go (is_alpha c) s')
  end.

Definition title (s : string) : string := title_go false s.

(** [s.startswith(p)] *)
Fixpoint startswith (p s : string) : bool :=
  match p, s with
  | EmptyString, _ => true
  | String a p', String b s' => Ascii.eqb a b && startswith p' s'
  | String _ _, EmptyString => false
  end.

(** [needle in hay] *)
Fixpoint contains (needle hay : string) : bool :=
  startswith needle hay
  || match hay with
     | EmptyString => false
     | String _ hay' => contains needle hay'
     end.

(** [s.lstrip()], [s.rstrip()], [s.strip()] *)
Fixpoint lstrip (s : string) : string :=
  match s with
  | EmptyString => EmptyString
  | String c s' => if is_space c then lstrip s' else s
  end.

Fixpoint rstrip (s : string) : string :=
  match s with
  | EmptyString => EmptyString
  | String c s' =>
      match rstrip s' with
      | EmptyString => if is_space c then EmptyString else String c EmptyString
      | r => String c r
      end
  end.

Definition strip (s : string) : string := rstrip (lstrip s).

(** [s.split()]: the maximal runs of non-space characters.  [cur] is
    the run being read, in reverse. *)
Fixpoint split_go (cur : list ascii) (s : string) : list string :=
  let flush (rest : list string) :=
    match cur with
    | [] => rest
    | _ => string_of_list_ascii (rev cur) :: rest
    end in
  match s with
  | EmptyString => flush []
  | String c s' =>
      if is_space c then flush (split_go [] s') else split_go (c :: cur) s'
  end.

Definition split (s : string) : list string := split_go [] s.

(** [sep.join(parts)] *)
Fixpoint join (sep : string) (parts : list string) : string :=
  match parts with
  | [] => EmptyString
  | [p] => p
  | p :: ps => p +:+ sep +:+ join sep ps
  end.

(** Truthiness of a [str]: non-empty. *)
Definition truthy (s : string) : bool :=
  match s with EmptyString => false | String _ _ => true end.

End PyStr.

(** ** Records and their ids *)

(** The dictionary built by [_extract_record_data]. *)
Record record := mk_record {
  county : string;
  name : string;
  age : string;
  height : string;
  weight : string;
  hair_color : string;
  eye_color : string;
  sex : string;
  race : string;
  booking_date : string;
  arrested_by : string;
  charges : string;
  bond_amount : string;
  mugshot_url : string;
  scraped_at : string
}.

(** [generate_record_id]:
    [f"{record['name']}_{record['booking_date']}".lower().replace(' ', '_')] *)
Definition generate_record_id (r : record) : string :=
  PyStr.replace_char " "%char "_"%char
    (PyStr.lower (name r +:+ "_" +:+ booking_date r)).


(** ** Dates: [datetime] and [datetime.strptime] *)

Module PyDate.

(** A [datetime]: calendar date and the microsecond of the day. *)
Record datetime := mk_datetime {
  year : nat;
  month : nat;
  day : nat;
  tod : nat
}.

(** [a < b] on [datetime]s. *)
Definition ltb (a b : datetime) : bool :=
  (year a <? year b)%nat
  || ((year a =? year b)%nat
      && ((month a <? month b)%nat
          || ((month a =? month b)%nat
              && ((day a <? day b)%nat
                  || ((day a =? day b)%nat && (tod a <? tod b)%nat))))).

Definition is_leap (y : nat) : bool :=
  ((y mod 4 =? 0)%nat && negb (y mod 100 =? 0)%nat) || (y mod 400 =? 0)%nat.

Definition days_in_month (y m : nat) : nat :=
  match m with
  | 2 => if is_leap y then 29 else 28
  | 4 | 6 | 9 | 11 => 30
  | _ => 31
  end.

(** The directives and literals of a [strptime] format. *)
Inductive directive := DY | Dm | Dd | Lit (c : ascii).

Definition is_digit (c : ascii) : bool :=
  let n := nat_of_ascii c in (48 <=? n)%nat && (n <=? 57)%nat.

Definition digit_val (c : ascii) : nat := nat_of_ascii c - 48.

Definition in_range (lo hi : nat) (c : ascii) : bool :=
  is_digit c && (lo <=? digit_val c)%nat && (digit_val c <=? hi)%nat.

(** One alternative of a directive's regular expression: a value read
    off a prefix, and the rest of the text. *)
Definition alt := (nat * string)%type.

(** [%Y] is [\d\d\d\d]. *)
Definition match_Y (s : string) : list alt :=
  match s with
  | String a (String b (String c (String d rest))) =>
      if is_digit a && is_digit b && is_digit c && is_digit d
      then [(1000 * digit_val a + 100 * digit_val b
             + 10 * digit_val c + digit_val d, rest)]
      else []
  | _ => []
  end.

Definition two (p : ascii → bool) (q : ascii → bool)
    (s : string) : list alt :=
  match s with
  | String a (String b rest) =>
      if p a && q b then [(10 * digit_val a + digit_val b, rest)] else []
  | _ => []
  end.

Definition one (p : ascii → bool) (s : string) : list alt :=
  match s with
  | String a rest => if p a then [(digit_val a, rest)] else []
  | _ => []
  end.

(** [%m] is [1[0-2]|0[1-9]|[1-9]], alternatives in that order. *)
Definition match_m (s : string) : list alt :=
  two (in_range 1 1) (in_range 0 2) s
  ++ two (in_range 0 0) (in_range 1 9) s
  ++ one (in_range 1 9) s.

(** [%d] is [3[0-1]|[1-2]\d|0[1-9]|[1-9]| [1-9]]. *)
Definition match_d (s : string) : list alt :=
  two (in_range 3 3) (in_range 0 1) s
  ++ two (in_range 1 2) is_digit s
  ++ two (in_range 0 0) (in_range 1 9) s
  ++ one (in_range 1 9) s
  ++ match s with
     | String c rest =>
         if Ascii.eqb c " " then one (in_range 1 9) rest else []
     | _ => []
     end.

(** The fields found so far; [strptime] starts from 1900-01-01. *)
Definition ymd := (nat * nat * nat)%type.

(** All the ways the format's regular expression matches a prefix of
    [s], in the order a backtracking matcher finds them. *)
Fixpoint match_fmt (fmt : list directive) (acc : ymd) (s : string)
    : list (ymd * string) :=
  match fmt with
  | [] => [(acc, s)]
  | DY :: fmt' =>
      '(v, rest) ← match_Y s; match_fmt fmt' (v, acc.1.2, acc.2) rest
  | Dm :: fmt' =>
      '(v, rest) ← match_m s; match_fmt fmt' (acc.1.1, v, acc.2) rest
  | Dd :: fmt' =>
      '(v, rest) ← match_d s; match_fmt fmt' (acc.1, v) rest
  | Lit c :: fmt' =>
      match s with
      | String c' rest =>
          if Ascii.eqb c c' then match_fmt fmt' acc rest else []
      | EmptyString => []
      end
  end.

(** [datetime.strptime(s, fmt)]; [None] stands for [ValueError]: no
    match, unconverted data after the first match, or a date that does
    not exist (year 0, day beyond the month's length). *)
Definition strptime (s : string) (fmt : list directive) : option datetime :=
  match head (match_fmt fmt (1900, 1, 1) s) with
  | Some ((y, m, d), EmptyString) =>
      if (1 <=? y)%nat && (d <=? days_in_month y m)%nat
      then Some (mk_datetime y m d 0)
      else None
  | _ => None
  end.

(** ['%Y-%m-%d', '%m/%d/%Y', '%m-%d-%Y', '%Y/%m/%d'] *)
Definition formats : list (list directive) :=
  [ [DY; Lit "-"; Dm; Lit "-"; Dd];
    [Dm; Lit "/"; Dd; Lit "/"; DY];
    [Dm; Lit "-"; Dd; Lit "-"; DY];
    [DY; Lit "/"; Dm; Lit "/"; Dd] ].

End PyDate.

Abbreviation datetime := PyDate.datetime.

(** The [for fmt in formats: try ... except ValueError: continue] loop. *)
Fixpoint try_formats (date_str : string) (fmts : list (list PyDate.directive))
    : option datetime :=
  match fmts with
  | [] => None
  | fmt :: fmts' =>
      match PyDate.strptime date_str fmt with
      | Some d => Some d
      | None => try_formats date_str fmts'
      end
  end.

(** [_parse_date] *)
Definition _parse_date (date_str : string) : option datetime :=
  if negb (PyStr.truthy date_str) then None
  else try_formats date_str PyDate.formats.


(** ** Filter *)

(** The filter arguments of [scrape_county]: [date_from], [date_to],
    [charge_keywords], all [Optional]. *)
Record criteria := mk_criteria {
  date_from : option datetime;
  date_to : option datetime;
  charge_keywords : option (list string)
}.

Definition no_criteria : criteria := mk_criteria None None None.

(** Truthiness of an [Optional[List[str]]]: neither [None] nor empty. *)
Definition keywords_truthy (kws : option (list string)) : bool :=
  match kws with
  | Some (_ :: _) => true
  | _ => false
  end.

(** Truthiness of an [Optional[datetime]]: not [None]. *)
Definition is_set {A} (o : option A) : bool :=
  match o with Some _ => true | None => false end.

(** The cache check of the loop body: [record_id in cached_ids]. *)
Definition in_cache (cached_ids : gset string) (r : record) : bool :=
  bool_decide (generate_record_id r ∈ cached_ids).

(** The date check of the loop body; [false] is [continue]. *)
Definition date_check (c : criteria) (r : record) : bool :=
  if is_set (date_from c) || is_set (date_to c) then
    match _parse_date (booking_date r) with
    | Some bd =>
        if match date_from c with
           | Some f => PyDate.ltb bd f
           | None => false
           end
        then false
        else if match date_to c with
                | Some t => PyDate.ltb t bd
                | None => false
                end
             then false
             else true
    | None => true
    end
  else true.

(** The keyword check of the loop body; [false] is [continue]. *)
Definition charges_check (c : criteria) (r : record) : bool :=
  if keywords_truthy (charge_keywords c) && PyStr.truthy (charges r) then
    let charges_lower := PyStr.lower (charges r) in
    existsb (λ kw, PyStr.contains (PyStr.lower kw) charges_lower)
            (default [] (charge_keywords c))
  else true.

(** One pass of the loop body reaches [filtered.append(record)]. *)
Definition record_passes (cached_ids : gset string) (c : criteria)
    (r : record) : bool :=
  if in_cache cached_ids r then false
  else if negb (date_check c r) then false
  else if negb (charges_check c r) then false
  else true.

(** The objects [_filter_records] can reach while it runs: the list it
    builds and the set it was handed. *)
Record filter_frame := mk_frame {
  filtered : list record;
  frame_cached_ids : gset string
}.

(** The body of [for record in records] on one record. *)
Definition filter_step (c : criteria) (fr : filter_frame) (r : record)
    : filter_frame :=
  if record_passes (frame_cached_ids fr) c r
  then mk_frame (filtered fr ++ [r]) (frame_cached_ids fr)
  else fr.

Fixpoint filter_loop (c : criteria) (records : list record)
    (fr : filter_frame) : filter_frame :=
  match records with
  | [] => fr
  | r :: records' => filter_loop c records' (filter_step c fr r)
  end.

(** [_filter_records] *)
Definition _filter_records (records : list record) (cached_ids : gset string)
    (c : criteria) : list record :=
  filtered (filter_loop c records (mk_frame [] cached_ids)).

(** ** Pages, entries and the regular-expression collaborator *)

(** The flags the class passes to [re.search]. *)
Record re_flags := mk_flags { ignorecase : bool; dotall : bool }.

(** What [bs4] finds in one candidate entry: the text nodes of the first
    [h2]/[h3]/[a] whose class matches [name|title] (if there is one), the
    [src] attribute of the first [img] (if it has one), and
    [entry.get_text()]. *)
Record block := mk_block {
  name_elem : option (list string);
  img_src : option string;
  text_content : string
}.

(** A candidate entry; [Malformed] is an entry on which extraction
    raises. *)
Inductive entry := Malformed | Block (b : block).

(** A parsed page: the [article]/[div] elements whose class matches
    [mugshot|booking|arrest], and the [div]s of class [post]. *)
Record document := mk_document {
  classified : list entry;
  posts : list entry
}.

(** [elem.get_text(strip=True)]: every text node stripped, the empty ones
    dropped, the rest joined. *)
Definition get_text_strip (texts : list string) : string :=
  String.concat "" (filter (λ t, PyStr.truthy t = true) (PyStr.strip <$> texts)).

Definition dquote : string := String (ascii_of_nat 34) EmptyString.

Section Parser.

(** [re.search(pattern, text, flags)]: group 1 of the first match. *)
Variable re_search : string → string → re_flags → option string.

(** [_extract_pattern] *)
Definition _extract_pattern (text pattern : string)
    (case_sensitive multiword : bool) : string :=
  let flags := mk_flags (negb case_sensitive) false in
  match re_search pattern text flags with
  | Some group1 =>
      let result := PyStr.strip group1 in
      if multiword then PyStr.join " " (PyStr.split result) else result
  | None => ""
  end.

(** The name [_extract_record_data] reads off an entry:
    [name_elem.get_text(strip=True)] if the element was found. *)
Definition entry_name (b : block) : string :=
  match name_elem b with
  | Some texts => get_text_strip texts
  | None => ""
  end.

(** The dictionary [_extract_record_data] has filled in when it reaches
    its [return]; [now] is [datetime.now().strftime(...)]. *)
Definition build_record (b : block) (county_name now : string) : record :=
  let text := text_content b in
  let booked := _extract_pattern text "booked\s+([\d\-]+)" false false in
  let arrested := _extract_pattern text "arrested by\s+([A-Z\s]+)" false true in
  let bond := _extract_pattern text "bond[:\s]+\$?([\d,]+)" false false in
  {|
    county := PyStr.title county_name;
    name := entry_name b;
    age := _extract_pattern text "age\s+(\d+)" false false;
    height := _extract_pattern text ("height\s+([\d'\" +:+ dquote +:+ "]+)") false false;
    weight := _extract_pattern text "weight\s+(\d+)\s*lbs" false false;
    hair_color := _extract_pattern text "hair\s+([A-Z]{3})" false false;
    eye_color := _extract_pattern text "eye\s+([A-Z]{3})" false false;
    sex := _extract_pattern text "sex\s+(Male|Female)" true false;
    race := _extract_pattern text "race\s+([A-Z])\s+" false false;
    booking_date := if PyStr.truthy booked then booked else "";
    arrested_by := if PyStr.truthy arrested then arrested else "";
    charges :=
      match re_search "charges?[:\s]+(.+?)(?:bond|$)" text (mk_flags true true) with
      | Some group1 => PyStr.strip group1
      | None => ""
      end;
    bond_amount := if PyStr.truthy bond then bond else "";
    mugshot_url :=
      match img_src b with
      | Some src => if PyStr.truthy src then src else ""
      | None => ""
      end;
    scraped_at := now
  |}.

(** [_extract_record_data] on an entry whose extraction does not raise:
    [return record if record['name'] else None]. *)
Definition _extract_record_data (b : block) (county_name now : string)
    : option record :=
  let r := build_record b county_name now in
  if PyStr.truthy (name r) then Some r else None.

(** The [for entry in entries] loop of [_parse_page]; [i] counts the
    entries read so far and [now i] is the clock reading at entry [i].
    A [Malformed] entry raises inside the [try] and is skipped. *)
Fixpoint parse_entries (entries : list entry) (county_name : string)
    (now : nat → string) (i : nat) : list record :=
  match entries with
  | [] => []
  | Malformed :: entries' => parse_entries entries' county_name now (S i)
  | Block b :: entries' =>
      match _extract_record_data b county_name (now i) with
      | Some r => r :: parse_entries entries' county_name now (S i)
      | None => parse_entries entries' county_name now (S i)
      end
  end.

(** The entries [_parse_page] walks: the classified ones, or the
    [post] blocks when there are none. *)
Definition select_entries (soup : document) : list entry :=
  match classified soup with
  | [] => posts soup
  | es => es
  end.

(** [_parse_page] *)
Definition _parse_page (soup : document) (county_name : string)
    (now : nat → string) : list record :=
  parse_entries (select_entries soup) county_name now 0.

End Parser.

(** ** The world outside the class *)

(** What [requests.get] followed by [raise_for_status] and
    [BeautifulSoup(...)] gives for a URL: a [RequestException], some
    other exception while the page is processed, or a parsed page. *)
Inductive page_result :=
  | FetchFailed
  | Unparsable
  | Page (soup : document).

(** A cache file on disk: a JSON object whose [record_ids] are [ids], or
    content that [json.load] or [data.get] rejects. *)
Inductive cache_file :=
  | FileIds (ids : list string)
  | FileBad.

(** What happens when [save_cache] opens and writes the cache file: the
    write goes through, or it raises; a write that raises after the file
    was opened leaves it [damaged] (opened with ['w'], so truncated). *)
Inductive write_outcome :=
  | WriteOk
  | WriteRaises (damaged : bool).

Record world := mk_world {
  fetch : string → page_result;
  (** the clock reading when entry [i] of the page at [url] is extracted *)
  clock : string → nat → string;
  (** the outcome of writing the cache file of a county *)
  cache_write : string → write_outcome
}.

Inductive level := DEBUG | INFO | WARNING | ERROR.

(** The messages the class logs, one constructor per f-string. *)
Inductive message :=
  | MsgNotSupported (county_name : string)
  | MsgStarting (county_title : string)
  | MsgFilteringFrom (d : datetime)
  | MsgFilteringTo (d : datetime)
  | MsgFilteringCharges (kws : list string)
  | MsgScrapingPage (page : nat)
  | MsgNoMoreRecords (page : nat)
  | MsgFoundNew (n page : nat)
  | MsgErrorFetching (page : nat)
  | MsgErrorParsing (page : nat)
  | MsgTotalNew (county_name : string) (n : nat)
  | MsgErrorLoadingCache
  | MsgErrorSavingCache
  | MsgRule
  | MsgProcessing (county_title : string)
  | MsgSaved (n : nat) (county_name : string)
  | MsgNoRecordsToSave (county_name : string).

(** The effects of a run, in the order they happen. *)
Inductive event :=
  | Log (lvl : level) (msg : message)
  | HttpGet (url : string)
  | Sleep (secs : nat)
  | SaveCache (county_name : string) (record_ids : gset string)
  | WriteCsv (county_name : string) (records : list record).

(** A computation reads and writes the cache directory and produces
    effects: from the directory it starts in, it gives a value, the
    directory it leaves and the effects it had, in order. *)
Definition M (A : Type) : Type :=
  gmap string cache_file → A * gmap string cache_file * list event.

#[local] Instance M_ret : MRet M := λ A a dir, (a, dir, []).
#[local] Instance M_bind : MBind M :=
  λ A B f m dir,
    let '(a, dir1, t1) := m dir in
    let '(b, dir2, t2) := f a dir1 in
    (b, dir2, t1 ++ t2).

Definition emit (e : event) : M unit := λ dir, (tt, dir, [e]).

Definition log (lvl : level) (msg : message) : M unit := emit (Log lvl msg).

Definition read_file (path : string) : M (option cache_file) :=
  λ dir, (dir !! path, dir, []).

Definition write_file (path : string) (f : cache_file) : M unit :=
  λ dir, (tt, <[path := f]> dir, []).

(** The value, the directory left and the effects of a run. *)
Definition value_of {A} (run : A * gmap string cache_file * list event) : A :=
  run.1.1.
Definition dir_of {A} (run : A * gmap string cache_file * list event)
    : gmap string cache_file := run.1.2.
Definition trace_of {A} (run : A * gmap string cache_file * list event)
    : list event := run.2.

Definition when (b : bool) (m : M unit) : M unit :=
  if b then m else mret tt.

(** ** The cache *)

(** [load_cache]; the cache file of a county is keyed by the county name
    as it was passed. *)
Definition load_cache (county_name : string) : M (gset string) :=
  f ← read_file county_name;
  match f with
  | Some (FileIds ids) => mret (list_to_set ids)
  | Some FileBad => log WARNING MsgErrorLoadingCache;; mret ∅
  | None => mret ∅
  end.

(** [save_cache] *)
Definition save_cache (w : world) (county_name : string)
    (record_ids : gset string) : M unit :=
  emit (SaveCache county_name record_ids);;
  match cache_write w county_name with
  | WriteOk => write_file county_name (FileIds (elements record_ids))
  | WriteRaises damaged =>
      when damaged (write_file county_name FileBad);;
      log WARNING MsgErrorSavingCache
  end.

(** The ids a later [load_cache] reads from the directory. *)
Definition stored_ids (dir : gmap string cache_file) (county_name : string)
    : gset string :=
  match dir !! county_name with
  | Some (FileIds ids) => list_to_set ids
  | _ => ∅
  end.

(** ** The orchestrator *)

Definition base_url : string := "https://bustednewspaper.com/mugshots/kentucky".

(** [self.counties], in insertion order. *)
Definition counties : list (string * string) :=
  [ ("nelson", "nelson-county");
    ("jefferson", "jefferson-county");
    ("hardin", "hardin-county");
    ("bullitt", "bullitt-county");
    ("fayette", "fayette-county");
    ("spencer", "spencer-county");
    ("warren", "warren-county");
    ("boone", "boone-county");
    ("franklin", "franklin-county") ].

(** [d[key]] / [key in d] on a dictionary kept as an association list. *)
Fixpoint dict_get (d : list (string * string)) (key : string) : option string :=
  match d with
  | [] => None
  | (k, v) :: d' => if String.eqb k key then Some v else dict_get d' key
  end.

(** [f"{self.base_url}/{county_slug}/"] *)
Definition county_url (county_slug : string) : string :=
  base_url +:+ "/" +:+ county_slug +:+ "/".

(** [url if page == 1 else f"{url}page/{page}/"] *)
Definition page_url (url : string) (page : nat) : string :=
  if (page =? 1)%nat then url else url +:+ "page/" +:+ pretty page +:+ "/".

(** The two accumulators of the page loop. *)
Record accum := mk_accum {
  all_records : list record;
  new_record_ids : gset string
}.

(** The three [if ...: logger.info(f"Filtering ...")] statements at the
    start of [scrape_county]. *)
Definition log_filters (c : criteria) : M unit :=
  match date_from c with
  | Some d => log INFO (MsgFilteringFrom d)
  | None => mret tt
  end;;
  match date_to c with
  | Some d => log INFO (MsgFilteringTo d)
  | None => mret tt
  end;;
  when (keywords_truthy (charge_keywords c))
       (log INFO (MsgFilteringCharges (default [] (charge_keywords c)))).

Section Orchestrator.

Variable re_search : string → string → re_flags → option string.
Variable w : world.

(** [for page in range(page, page + n)]: the body of the page loop and
    the iterations after it.  [break] returns the accumulators,
    [continue] goes on with the next page. *)
Fixpoint page_loop (n page : nat) (url county_name : string)
    (cached_ids : gset string) (c : criteria) (acc : accum) : M accum :=
  match n with
  | 0 => mret acc
  | S n' =>
      let purl := page_url url page in
      log INFO (MsgScrapingPage page);;
      emit (HttpGet purl);;
      match fetch w purl with
      | FetchFailed =>
          log ERROR (MsgErrorFetching page);;
          mret acc
      | Unparsable =>
          log ERROR (MsgErrorParsing page);;
          page_loop n' (S page) url county_name cached_ids c acc
      | Page soup =>
          let records := _parse_page re_search soup county_name (clock w purl) in
          match records with
          | [] =>
              log INFO (MsgNoMoreRecords page);;
              mret acc
          | _ =>
              let filtered_records := _filter_records records cached_ids c in
              let acc' :=
                mk_accum
                  (all_records acc ++ filtered_records)
                  (new_record_ids acc
                   ∪ list_to_set (generate_record_id <$> filtered_records)) in
              log INFO (MsgFoundNew (length filtered_records) page);;
              emit (Sleep 2);;
              page_loop n' (S page) url county_name cached_ids c acc'
          end
      end
  end.

(** [scrape_county] *)
Definition scrape_county (county_name : string) (max_pages : nat)
    (c : criteria) (skip_duplicates : bool) : M (list record) :=
  match dict_get counties (PyStr.lower county_name) with
  | None =>
      log ERROR (MsgNotSupported county_name);;
      mret []
  | Some county_slug =>
      cached_ids ← (if skip_duplicates then load_cache county_name
                    else mret ∅);
      let url := county_url county_slug in
      log INFO (MsgStarting (PyStr.title county_name));;
      log_filters c;;
      acc ← page_loop max_pages 1 url county_name cached_ids c
                      (mk_accum [] ∅);
      when (skip_duplicates
            && negb (bool_decide (new_record_ids acc = ∅)))
           (save_cache w county_name (cached_ids ∪ new_record_ids acc));;
      log INFO (MsgTotalNew county_name (length (all_records acc)));;
      mret (all_records acc)
  end.

(** [save_to_csv], as far as the cache pipeline is concerned: the file
    it writes and what it logs. *)
Definition save_to_csv (records : list record) (county_name : string)
    : M unit :=
  match records with
  | [] => log WARNING (MsgNoRecordsToSave county_name)
  | _ =>
      emit (WriteCsv county_name records);;
      log INFO (MsgSaved (length records) county_name)
  end.

(** The [for county_name in self.counties.keys()] loop of
    [scrape_all_counties]; [results] is the dictionary built so far, in
    insertion order. *)
Fixpoint counties_loop (names : list string) (max_pages : nat)
    (c : criteria) (skip_duplicates : bool)
    (results : list (string * list record))
    : M (list (string * list record)) :=
  match names with
  | [] => mret results
  | county_name :: names' =>
      log INFO MsgRule;;
      log INFO (MsgProcessing (PyStr.title county_name));;
      log INFO MsgRule;;
      records ← scrape_county county_name max_pages c skip_duplicates;
      when (negb (bool_decide (records = [])))
           (save_to_csv records county_name);;
      emit (Sleep 3);;
      counties_loop names' max_pages c skip_duplicates
                    (results ++ [(county_name, records)])
  end.

(** [scrape_all_counties] *)
Definition scrape_all_counties (max_pages : nat) (c : criteria)
    (skip_duplicates : bool) : M (list (string * list record)) :=
  counties_loop (counties.*1) max_pages c skip_duplicates [].

End Orchestrator.

(** ** Reading a trace *)

(** The URLs requested, in order. *)
Definition requests_of (t : list event) : list string :=
  omap (λ e, match e with HttpGet url => Some url | _ => None end) t.

(** The messages logged at level [ERROR], in order. *)
Definition errors_of (t : list event) : list message :=
  omap (λ e, match e with Log ERROR msg => Some msg | _ => None end) t.

(** The calls of [save_cache], in order. *)
Definition saves_of (t : list event) : list (string * gset string) :=
  omap (λ e, match e with
             | SaveCache county_name ids => Some (county_name, ids)
             | _ => None
             end) t.

(** A stretch of trace without cache writes, requests or errors. *)
Definition quiet (t : list event) : Prop :=
  saves_of t = [] ∧ requests_of t = [] ∧ errors_of t = [].

(** ** Notions the design document uses *)

(** [kw] appears in [text] as a substring, letter case ignored. *)
Definition appears_in (kw text : string) : Prop :=
  ∃ pre suf, PyStr.lower text = pre +:+ PyStr.lower kw +:+ suf.

(** White-space normalisation: leading and trailing white space removed,
    inner runs collapsed to one space. *)
Definition normalize_ws (s : string) : string :=
  PyStr.join " " (PyStr.split s).


(** [bd] lies outside the inclusive range the criteria give. *)
Definition outside_range (c : criteria) (bd : datetime) : Prop :=
  (∃ f, date_from c = Some f ∧ PyDate.ltb bd f = true)
  ∨ (∃ t, date_to c = Some t ∧ PyDate.ltb t bd = true).

(** [bd] lies inside the inclusive range the criteria give. *)
Definition inside_range (c : criteria) (bd : datetime) : Prop :=
  (∀ f, date_from c = Some f → PyDate.ltb bd f = false)
  ∧ (∀ t, date_to c = Some t → PyDate.ltb t bd = false).

(** The criteria set a date range: [date_from or date_to]. *)
Definition has_range (c : criteria) : Prop :=
  is_Some (date_from c) ∨ is_Some (date_to c).

(** Records for the examples: everything but the name, the booking date
    and the charges is left empty. *)
Definition sample_record (nm bd ch : string) : record :=
  {| county := "Nelson"; name := nm; age := ""; height := ""; weight := "";
     hair_color := ""; eye_color := ""; sex := ""; race := "";
     booking_date := bd; arrested_by := ""; charges := ch;
     bond_amount := ""; mugshot_url := ""; scraped_at := "" |}.

(** ** The pages a run reads *)

Section Pages.

Variable re_search : string → string → re_flags → option string.
Variable w : world.

(** The records [_parse_page] gives for the pages the page loop
    processes, page by page: the loop ends at a failed fetch and at a
    page without records, and passes over a page it cannot parse. *)
Fixpoint parsed_pages (n page : nat) (url county_name : string)
    : list (list record) :=
  match n with
  | 0 => []
  | S n' =>
      match fetch w (page_url url page) with
      | FetchFailed => []
      | Unparsable => parsed_pages n' (S page) url county_name
      | Page soup =>
          match _parse_page re_search soup county_name
                  (clock w (page_url url page)) with
          | [] => []
          | records => records :: parsed_pages n' (S page) url county_name
          end
      end
  end.

(** After page [page] the loop goes on to the next one. *)
Definition page_goes_on (url county_name : string) (page : nat) : bool :=
  match fetch w (page_url url page) with
  | FetchFailed => false
  | Unparsable => true
  | Page soup =>
      match _parse_page re_search soup county_name
              (clock w (page_url url page)) with
      | [] => false
      | _ => true
      end
  end.

(** The records of page [page] that pass the filter. *)
Definition page_kept (url county_name : string) (cached_ids : gset string)
    (c : criteria) (page : nat) : list record :=
  match fetch w (page_url url page) with
  | Page soup =>
      _filter_records
        (_parse_page re_search soup county_name (clock w (page_url url page)))
        cached_ids c
  | _ => []
  end.

End Pages.

(** The set [scrape_county] starts from: the stored ids, or nothing when
    duplicates are not skipped. *)
Definition start_ids (dir : gmap string cache_file) (county_name : string)
    (skip_duplicates : bool) : gset string :=
  if skip_duplicates then stored_ids dir county_name else ∅.

(** The ids of a list of records. *)
Definition ids_of (records : list record) : gset string :=
  list_to_set (generate_record_id <$> records).

(** A record with its time stamp blanked. *)
Definition erase_time (r : record) : record :=
  {| county := county r; name := name r; age := age r; height := height r;
     weight := weight r; hair_color := hair_color r;
     eye_color := eye_color r; sex := sex r; race := race r;
     booking_date := booking_date r; arrested_by := arrested_by r;
     charges := charges r; bond_amount := bond_amount r;
     mugshot_url := mugshot_url r; scraped_at := "" |}.

(** ** Example data *)

(** [re.search] on a text in which none of the field labels ([age],
    [height], ..., [booked], [bond], [charge]) occurs: no pattern of
    [build_record] matches. *)
Definition re_search_unlabelled : string → string → re_flags → option string :=
  λ _ _ _, None.

(** An entry whose only text is a name element, and an entry without a
    name element. *)
Definition named_entry (nm : string) : entry :=
  Block (mk_block (Some [nm]) None nm).

Definition nameless_entry : entry := Block (mk_block None None "").

Definition nelson_url : string := county_url "nelson-county".

(** A first page with three named entries and a nameless one. *)
Definition nelson_page_1 : document :=
  mk_document
    [named_entry "John Doe"; nameless_entry;
     named_entry "Jane Roe"; named_entry "Sam Poe"] [].


Definition empty_page : document := mk_document [] [].

(** A site that serves [first] as the first page of Nelson county and
    [second] as its second page, and fails on every other URL. *)
Definition sample_fetch (first : document) (second : page_result)
    (url : string) : page_result :=
  if String.eqb url nelson_url then Page first
  else if String.eqb url (nelson_url +:+ "page/2/") then second
  else FetchFailed.

Definition sample_clock : string → nat → string :=
  λ _ _, "2024-01-02 09:00:00".

(** The listing ends on the second page; cache writes go through. *)
Definition two_page_world : world :=
  mk_world (sample_fetch nelson_page_1 (Page empty_page)) sample_clock
           (λ _, WriteOk).

(** The same site, on a machine where the cache file cannot be opened
    for writing. *)
Definition failing_write_world : world :=
  mk_world (sample_fetch nelson_page_1 (Page empty_page)) sample_clock
           (λ _, WriteRaises false).


(** The same first page, and a second page whose fetch fails. *)
Definition failing_fetch_world : world :=
  mk_world (sample_fetch nelson_page_1 FetchFailed) sample_clock
           (λ _, WriteOk).


(** The delays observed, in order. *)
Definition sleeps_of (t : list event) : list nat :=
  omap (λ e, match e with Sleep secs => Some secs | _ => None end) t.

(** The names of the entries that have one, in page order. *)
Definition named_of (entries : list entry) : list string :=
  omap (λ e, match e with
             | Block b =>
                 if PyStr.truthy (entry_name b) then Some (entry_name b)
                 else None
             | Malformed => None
             end) entries.

(** A text that does not start with white space. *)
Definition starts_clean (s : string) : Prop :=
  match s with
  | EmptyString => True
  | String ch _ => PyStr.is_space ch = false
  end.

(** A word: not empty, without white space. *)
Definition is_word (s : string) : Prop :=
  s ≠ "" ∧ Forall (λ ch, PyStr.is_space ch = false) (list_ascii_of_string s).

(** The fields [strptime] has read: a year of four digits, a month and
    a day of the month within the ranges the directives accept. *)
Definition fields_in_range (acc : PyDate.ymd) : Prop :=
  (acc.1.1 < 10 * 1000 ∧ 1 ≤ acc.1.2 ≤ 12 ∧ 1 ≤ acc.2 ≤ 31)%nat.

(** The CSV files written, in order: county name and rows. *)
Definition csvs_of (t : list event) : list (string * list record) :=
  omap (λ e, match e with
             | WriteCsv county_name records => Some (county_name, records)
             | _ => None
             end) t.

(** A computation that writes no CSV file, wherever it starts. *)
Definition writes_no_csv {A} (m : M A) : Prop :=
  ∀ dir, csvs_of (trace_of (m dir)) = [].

(** ** The summary report *)

Definition newline : string := String (ascii_of_nat 10) EmptyString.

(** [s * n] *)
Fixpoint repeat_str (s : string) (n : nat) : string :=
  match n with
  | 0 => EmptyString
  | S n' => s +:+ repeat_str s n'
  end.

(** [f"{'='*60}"] *)
Definition rule60 : string := repeat_str "=" 60.

(** The body of [for county, records in results.items()] in
    [generate_summary_report], on the pair [(report, total_records)]. *)
Definition summary_step (st : string * nat) (item : string * list record)
    : string * nat :=
  let count := length item.2 in
  let total_records := (st.2 + count)%nat in
  let status := if (0 <? count)%nat then "✅" else "❌" in
  (st.1 +:+ (status +:+ " " +:+ PyStr.title item.1 +:+ " County: "
             +:+ pretty count +:+ " records" +:+ newline),
   total_records).

(** [generate_summary_report]: the report it returns (and prints and
    logs); [timestamp] is [datetime.now().strftime(...)]. *)
Definition generate_summary_report (results : list (string * list record))
    (timestamp : string) : string :=
  let report := newline +:+ rule60 +:+ newline in
  let report := report +:+ ("SCRAPING SUMMARY - " +:+ timestamp +:+ newline) in
  let report := report +:+ (rule60 +:+ newline +:+ newline) in
  let st := fold_left summary_step results (report, 0%nat) in
  let report := st.1 +:+ (newline +:+ rule60 +:+ newline) in
  let report := report +:+ ("TOTAL: " +:+ pretty st.2 +:+ " records" +:+ newline) in
  report +:+ (rule60 +:+ newline).

(** The line of the report for one county. *)
Definition summary_line (item : string * list record) : string :=
  (if bool_decide (item.2 = []) then "❌" else "✅")
  +:+ " " +:+ PyStr.title item.1 +:+ " County: "
  +:+ pretty (length item.2) +:+ " records" +:+ newline.

(** The head of the report, before the county lines. *)
Definition summary_head (timestamp : string) : string :=
  newline +:+ rule60 +:+ newline +:+ "SCRAPING SUMMARY - " +:+ timestamp
  +:+ newline +:+ rule60 +:+ newline +:+ newline.

(** The foot of the report, with the total. *)
Definition summary_foot (total : nat) : string :=
  newline +:+ rule60 +:+ newline +:+ "TOTAL: " +:+ pretty total
  +:+ " records" +:+ newline +:+ rule60 +:+ newline.

(** * Properties *)

(** ** Strings *)

Section StringFacts.

Lemma append_cons (c : ascii) (s t : string) :
  String c s +:+ t = String c (s +:+ t).
Proof. reflexivity. Qed.

Lemma append_nil_l (t : string) : "" +:+ t = t.
Proof. reflexivity. Qed.

Lemma lower_app (s t : string) :
  PyStr.lower (s +:+ t) = PyStr.lower s +:+ PyStr.lower t.
Proof.
  induction s as [|c s IH]; [done|].
  rewrite append_cons. cbn [PyStr.lower]. by rewrite IH.
Qed.

Lemma replace_char_app (a b : ascii) (s t : string) :
  PyStr.replace_char a b (s +:+ t)
  = PyStr.replace_char a b s +:+ PyStr.replace_char a b t.
Proof.
  induction s as [|c s IH]; [done|].
  rewrite append_cons. cbn [PyStr.replace_char]. by rewrite IH.
Qed.

Lemma startswith_spec (p s : string) :
  PyStr.startswith p s = true ↔ ∃ suf, s = p +:+ suf.
Proof.
  revert s. induction p as [|a p IH]; intros s.
  - split; [intros _; by exists s | by destruct s].
  - destruct s as [|b s]; cbn [PyStr.startswith].
    + split; [done | intros [suf Hs]; discriminate Hs].
    + rewrite andb_true_iff, IH. split.
      * intros [Hab [suf ->]]. apply Ascii.eqb_eq in Hab as ->.
        by exists suf.
      * intros [suf Hs]. rewrite append_cons in Hs.
        injection Hs as -> ->. split; [apply Ascii.eqb_refl | by exists suf].
Qed.

Lemma contains_spec (needle hay : string) :
  PyStr.contains needle hay = true ↔ ∃ pre suf, hay = pre +:+ needle +:+ suf.
Proof.
  induction hay as [|c hay IH].
  - cbn [PyStr.contains]. rewrite orb_false_r, startswith_spec. split.
    + intros [suf Hs]. by exists "", suf.
    + intros [pre [suf Hs]]. destruct pre; [by exists suf | discriminate Hs].
  - cbn [PyStr.contains]. rewrite orb_true_iff, startswith_spec, IH. split.
    + intros [[suf Hs] | [pre [suf Hs]]].
      * by exists "", suf.
      * exists (String c pre), suf. by rewrite append_cons, Hs.
    + intros [pre [suf Hs]]. destruct pre as [|c' pre].
      * left. by exists suf.
      * right. rewrite append_cons in Hs. injection Hs as _ ->.
        by exists pre, suf.
Qed.

End StringFacts.

Example split_ex : PyStr.split "  a  bc d " = ["a"; "bc"; "d"].
Proof. reflexivity. Qed.
Example strip_ex : PyStr.strip "  a  bc d " = "a  bc d".
Proof. reflexivity. Qed.
Example title_ex : PyStr.title "nelson o'brien-county" = "Nelson O'Brien-County".
Proof. reflexivity. Qed.

(** ** The filter loop *)

Lemma filter_loop_spec (c : criteria) (records : list record)
    (fr : filter_frame) :
  filter_loop c records fr
  = mk_frame
      (filtered fr
       ++ filter (λ r, record_passes (frame_cached_ids fr) c r = true) records)
      (frame_cached_ids fr).
Proof.
  revert fr. induction records as [|r records IH]; intros fr.
  - cbn. rewrite app_nil_r. by destruct fr.
  - cbn [filter_loop]. rewrite IH. unfold filter_step.
    rewrite filter_cons.
    destruct (record_passes (frame_cached_ids fr) c r) eqn:Hr; cbn.
    + rewrite decide_True by done. by rewrite <- app_assoc.
    + rewrite decide_False by done. done.
Qed.

Lemma filter_records_filter (records : list record) (cached_ids : gset string)
    (c : criteria) :
  _filter_records records cached_ids c
  = filter (λ r, record_passes cached_ids c r = true) records.
Proof. unfold _filter_records. by rewrite filter_loop_spec. Qed.

Lemma record_passes_true (cached_ids : gset string) (c : criteria)
    (r : record) :
  record_passes cached_ids c r = true
  ↔ in_cache cached_ids r = false
    ∧ date_check c r = true ∧ charges_check c r = true.
Proof.
  unfold record_passes.
  destruct (in_cache cached_ids r), (date_check c r), (charges_check c r);
    cbn; intuition congruence.
Qed.

Lemma elem_of_filter_records (records : list record)
    (cached_ids : gset string) (c : criteria) (r : record) :
  r ∈ _filter_records records cached_ids c
  ↔ r ∈ records ∧ record_passes cached_ids c r = true.
Proof. rewrite filter_records_filter, list_elem_of_filter. tauto. Qed.

(** C7. [_filter_records] leaves the cache set it was handed as it found
    it, and returns exactly the records of its input that pass the cache,
    date and keyword checks, in their input order: a sub-sequence of the
    input, decided record by record from the record, the cache set and
    the criteria. *)
Theorem filter_records_pure_order_preserving (records : list record)
    (cached_ids : gset string) (c : criteria) :
  frame_cached_ids (filter_loop c records (mk_frame [] cached_ids)) = cached_ids
  ∧ _filter_records records cached_ids c
    = filter (λ r, record_passes cached_ids c r = true) records
  ∧ sublist (_filter_records records cached_ids c) records
  ∧ ∀ r, r ∈ _filter_records records cached_ids c
         ↔ r ∈ records
           ∧ in_cache cached_ids r = false
           ∧ date_check c r = true
           ∧ charges_check c r = true.
Proof.
  split_and!.
  - by rewrite filter_loop_spec.
  - apply filter_records_filter.
  - rewrite filter_records_filter. apply sublist_filter.
  - intros r. by rewrite elem_of_filter_records, record_passes_true.
Qed.

(** ** The keyword check *)

Lemma appears_in_contains (kw text : string) :
  appears_in kw text
  ↔ PyStr.contains (PyStr.lower kw) (PyStr.lower text) = true.
Proof. unfold appears_in. by rewrite contains_spec. Qed.

Lemma charges_check_active (c : criteria) (kws : list string) (r : record) :
  charge_keywords c = Some kws → kws ≠ [] → charges r ≠ "" →
  charges_check c r
  = existsb (λ kw, PyStr.contains (PyStr.lower kw) (PyStr.lower (charges r))) kws.
Proof.
  intros Hc Hk Hr. unfold charges_check. rewrite Hc.
  destruct kws as [|kw kws]; [done|].
  destruct (charges r); [done|]. done.
Qed.

(** C4, as stated, fails: a record whose [charges] field is empty is kept
    under the keyword ["theft"], although the keyword does not appear in
    its charges. *)
Lemma keyword_filter_keeps_empty_charges :
  ¬ appears_in "theft" (charges (sample_record "Jane Roe" "2024-01-02" ""))
  ∧ _filter_records [sample_record "Jane Roe" "2024-01-02" ""] ∅
      (mk_criteria None None (Some ["theft"]))
    = [sample_record "Jane Roe" "2024-01-02" ""].
Proof.
  split.
  - rewrite appears_in_contains. by vm_compute.
  - by vm_compute.
Qed.

(** C4, amended. Under a non-empty keyword list, a record with non-empty
    [charges] passes the keyword check exactly when some keyword appears
    in its charges as a substring, letter case ignored, and [_filter_records]
    drops it when none does; a record with empty [charges] skips the
    keyword check.  Charges "Petit Theft, Resisting" are kept under the
    keyword "theft", charges "Speeding" are dropped. *)
Theorem keyword_check_spec :
  (∀ (c : criteria) (kws : list string) (r : record),
     charge_keywords c = Some kws → kws ≠ [] → charges r ≠ "" →
     (charges_check c r = true ↔ ∃ kw, kw ∈ kws ∧ appears_in kw (charges r))
     ∧ ((∀ kw, kw ∈ kws → ¬ appears_in kw (charges r)) →
        ∀ records cached_ids, r ∉ _filter_records records cached_ids c))
  ∧ (∀ (c : criteria) (r : record),
       charges r = "" → charges_check c r = true)
  ∧ _filter_records [sample_record "Jane Roe" "2024-01-02" "Petit Theft, Resisting"]
      ∅ (mk_criteria None None (Some ["theft"]))
    = [sample_record "Jane Roe" "2024-01-02" "Petit Theft, Resisting"]
  ∧ _filter_records [sample_record "Jane Roe" "2024-01-02" "Speeding"]
      ∅ (mk_criteria None None (Some ["theft"]))
    = [].
Proof.
  split_and!.
  - intros c kws r Hc Hk Hr.
    assert (Hiff : charges_check c r = true
                   ↔ ∃ kw, kw ∈ kws ∧ appears_in kw (charges r)).
    { rewrite (charges_check_active c kws r Hc Hk Hr), existsb_exists.
      split; intros [kw [Hin Hkw]]; exists kw.
      - by rewrite list_elem_of_In, appears_in_contains.
      - by rewrite <- list_elem_of_In, <- appears_in_contains. }
    split; [done|].
    intros Hnone records cached_ids
      [_ (_ & _ & Hch)%record_passes_true]%elem_of_filter_records.
    apply Hiff in Hch as [kw [Hin Hkw]]. by apply (Hnone kw).
  - intros c r Hr. unfold charges_check. rewrite Hr.
    by rewrite andb_false_r.
  - by vm_compute.
  - by vm_compute.
Qed.

(** The amended C4 at the keyword "theft" and the charges "Speeding". *)
Lemma keyword_check_spec_witness :
  charges_check (mk_criteria None None (Some ["theft"]))
    (sample_record "Jane Roe" "2024-01-02" "Speeding") = true
  ↔ ∃ kw, kw ∈ ["theft"]
          ∧ appears_in kw (charges (sample_record "Jane Roe" "2024-01-02" "Speeding")).
Proof.
  apply (proj1 keyword_check_spec
           (mk_criteria None None (Some ["theft"])) ["theft"]
           (sample_record "Jane Roe" "2024-01-02" "Speeding"));
    [reflexivity | discriminate | discriminate].
Defined.

(** ** Record ids *)

Lemma generate_record_id_parts (r : record) :
  generate_record_id r
  = PyStr.replace_char " " "_" (PyStr.lower (name r))
    +:+ "_"
    +:+ PyStr.replace_char " " "_" (PyStr.lower (booking_date r)).
Proof.
  unfold generate_record_id.
  by rewrite !lower_app, !replace_char_app.
Qed.






(** ** Dates *)

Example parse_iso : _parse_date "2024-03-01" = Some (PyDate.mk_datetime 2024 3 1 0).
Proof. reflexivity. Qed.
Example parse_us : _parse_date "3/1/2024" = Some (PyDate.mk_datetime 2024 3 1 0).
Proof. reflexivity. Qed.
Example parse_us_dash : _parse_date "12-31-2023" = Some (PyDate.mk_datetime 2023 12 31 0).
Proof. reflexivity. Qed.
Example parse_words : _parse_date "March 1st" = None.
Proof. reflexivity. Qed.
Example parse_feb30 : _parse_date "2024-02-30" = None.
Proof. reflexivity. Qed.
Example parse_trailing : _parse_date "2024-02-281" = None.
Proof. reflexivity. Qed.

Lemma try_formats_Some (s : string) (fmts : list (list PyDate.directive))
    (d : datetime) :
  try_formats s fmts = Some d
  ↔ ∃ i fmt, fmts !! i = Some fmt
             ∧ PyDate.strptime s fmt = Some d
             ∧ ∀ j fmt', (j < i)%nat → fmts !! j = Some fmt' →
                         PyDate.strptime s fmt' = None.
Proof.
  induction fmts as [|fmt fmts IH]; cbn [try_formats].
  - split; [done | by intros (i & fmt & Hi & _)].
  - destruct (PyDate.strptime s fmt) as [d'|] eqn:Hfmt.
    + split.
      * intros [= ->]. exists 0%nat, fmt. split_and!; [done..|]. lia.
      * intros (i & fmt' & Hi & Hd & Hbefore). destruct i as [|i].
        -- cbn in Hi. congruence.
        -- specialize (Hbefore 0%nat fmt ltac:(lia) eq_refl). congruence.
    + rewrite IH. split.
      * intros (i & fmt' & Hi & Hd & Hbefore). exists (S i), fmt'.
        split_and!; [done..|]. intros [|j] fmt'' Hj Hfmt''.
        -- cbn in Hfmt''. congruence.
        -- apply (Hbefore j); [lia | done].
      * intros (i & fmt' & Hi & Hd & Hbefore). destruct i as [|i].
        -- cbn in Hi. congruence.
        -- exists i, fmt'. split_and!; [done..|]. intros j fmt'' Hj Hfmt''.
           apply (Hbefore (S j)); [lia | done].
Qed.

Lemma try_formats_None (s : string) (fmts : list (list PyDate.directive)) :
  try_formats s fmts = None
  ↔ ∀ fmt, fmt ∈ fmts → PyDate.strptime s fmt = None.
Proof.
  induction fmts as [|fmt fmts IH]; cbn [try_formats].
  - split; [by intros _ fmt ?%elem_of_nil | done].
  - destruct (PyDate.strptime s fmt) as [d'|] eqn:Hfmt.
    + split; [done|]. intros Hall. rewrite Hall in Hfmt by left. done.
    + rewrite IH. split.
      * intros Hall fmt' [->|Hin]%elem_of_cons; auto.
      * intros Hall fmt' Hin. apply Hall. by right.
Qed.

Lemma strptime_empty (fmt : list PyDate.directive) :
  fmt ∈ PyDate.formats → PyDate.strptime "" fmt = None.
Proof.
  unfold PyDate.formats. rewrite !elem_of_cons, elem_of_nil.
  intros [->|[->|[->|[->|[]]]]]; reflexivity.
Qed.

Lemma date_check_parsed (c : criteria) (r : record) (bd : datetime) :
  _parse_date (booking_date r) = Some bd →
  date_check c r = true ↔ inside_range c bd.
Proof.
  intros Hbd. unfold date_check, inside_range. rewrite Hbd.
  destruct (date_from c) as [f|], (date_to c) as [t|]; cbn.
  - destruct (PyDate.ltb bd f) eqn:Hf, (PyDate.ltb t bd) eqn:Ht;
      split; try done.
    + intros [Hf' _]. specialize (Hf' f eq_refl). congruence.
    + intros [Hf' _]. specialize (Hf' f eq_refl). congruence.
    + intros [_ Ht']. specialize (Ht' t eq_refl). congruence.
    + intros _. split; congruence.
  - destruct (PyDate.ltb bd f) eqn:Hf; split; try done.
    + intros [Hf' _]. specialize (Hf' f eq_refl). congruence.
    + intros _. split; congruence.
  - destruct (PyDate.ltb t bd) eqn:Ht; split; try done.
    + intros [_ Ht']. specialize (Ht' t eq_refl). congruence.
    + intros _. split; congruence.
  - split; [|done]. intros _. split; congruence.
Qed.

Lemma outside_not_inside (c : criteria) (bd : datetime) :
  outside_range c bd → ¬ inside_range c bd.
Proof.
  intros [(f & Hf & Hlt)|(t & Ht & Hlt)] [Hin1 Hin2].
  - specialize (Hin1 f Hf). congruence.
  - specialize (Hin2 t Ht). congruence.
Qed.

Lemma parse_date_Some (s : string) (d : datetime) :
  _parse_date s = Some d
  ↔ ∃ i fmt, PyDate.formats !! i = Some fmt
             ∧ PyDate.strptime s fmt = Some d
             ∧ ∀ j fmt', (j < i)%nat → PyDate.formats !! j = Some fmt' →
                         PyDate.strptime s fmt' = None.
Proof.
  unfold _parse_date. destruct s as [|ch s]; cbn [PyStr.truthy negb].
  - split; [done|]. intros (i & fmt & Hi & Hd & _).
    rewrite strptime_empty in Hd; [done|]. by eapply list_elem_of_lookup_2.
  - apply try_formats_Some.
Qed.

Lemma parse_date_None (s : string) :
  _parse_date s = None
  ↔ ∀ fmt, fmt ∈ PyDate.formats → PyDate.strptime s fmt = None.
Proof.
  unfold _parse_date. destruct s as [|ch s]; cbn [PyStr.truthy negb].
  - split; [|done]. intros _ fmt. apply strptime_empty.
  - apply try_formats_None.
Qed.

(** C5. [_parse_date] tries the formats [%Y-%m-%d], [%m/%d/%Y],
    [%m-%d-%Y], [%Y/%m/%d] in that order and returns the first successful
    parse.  Under criteria with a date range, a record whose booking date
    parses to a date outside the inclusive range is dropped by
    [_filter_records]; one whose booking date parses to a date inside the
    range passes the date check; one whose booking date parses under no
    format passes the date check whatever the range.  A record booked
    "2024-03-01" is dropped under the range 2024-02-01 to 2024-02-28, a
    record booked "March 1st" is kept under any range. *)
Theorem date_filter_spec :
  (∀ (s : string) (d : datetime),
     _parse_date s = Some d
     ↔ ∃ i fmt, PyDate.formats !! i = Some fmt
                ∧ PyDate.strptime s fmt = Some d
                ∧ ∀ j fmt', (j < i)%nat → PyDate.formats !! j = Some fmt' →
                            PyDate.strptime s fmt' = None)
  ∧ (∀ s : string,
       _parse_date s = None
       ↔ ∀ fmt, fmt ∈ PyDate.formats → PyDate.strptime s fmt = None)
  ∧ PyDate.strptime "2024-03-01" <$> PyDate.formats
    = [Some (PyDate.mk_datetime 2024 3 1 0); None; None; None]
  ∧ PyDate.strptime "03/01/2024" <$> PyDate.formats
    = [None; Some (PyDate.mk_datetime 2024 3 1 0); None; None]
  ∧ PyDate.strptime "03-01-2024" <$> PyDate.formats
    = [None; None; Some (PyDate.mk_datetime 2024 3 1 0); None]
  ∧ PyDate.strptime "2024/03/01" <$> PyDate.formats
    = [None; None; None; Some (PyDate.mk_datetime 2024 3 1 0)]
  ∧ (∀ (c : criteria) (r : record) (bd : datetime),
       _parse_date (booking_date r) = Some bd → outside_range c bd →
       ∀ records cached_ids, r ∉ _filter_records records cached_ids c)
  ∧ (∀ (c : criteria) (r : record) (bd : datetime),
       _parse_date (booking_date r) = Some bd → inside_range c bd →
       date_check c r = true)
  ∧ (∀ (c : criteria) (r : record),
       _parse_date (booking_date r) = None → date_check c r = true)
  ∧ _filter_records [sample_record "Jane Roe" "2024-03-01" ""] ∅
      (mk_criteria (Some (PyDate.mk_datetime 2024 2 1 0))
                   (Some (PyDate.mk_datetime 2024 2 28 0)) None)
    = []
  ∧ (∀ f t : option datetime,
       _filter_records [sample_record "Jane Roe" "March 1st" ""] ∅
         (mk_criteria f t None)
       = [sample_record "Jane Roe" "March 1st" ""]).
Proof.
  split_and!.
  - apply parse_date_Some.
  - apply parse_date_None.
  - reflexivity.
  - reflexivity.
  - reflexivity.
  - reflexivity.
  - intros c r bd Hbd Hout records cached_ids
      [_ (_ & Hdate & _)%record_passes_true]%elem_of_filter_records.
    apply (date_check_parsed c r bd Hbd) in Hdate.
    by apply (outside_not_inside c bd).
  - intros c r bd Hbd Hin. by apply (date_check_parsed c r bd Hbd).
  - intros c r Hbd. unfold date_check. rewrite Hbd. by destruct (_ || _).
  - by vm_compute.
  - intros f t. rewrite filter_records_filter.
    rewrite filter_cons, decide_True; [done|].
    apply record_passes_true. split_and!.
    + by vm_compute.
    + unfold date_check. by destruct (_ || _).
    + done.
Qed.

(** C5 at the booking date "2024-03-01" and the range 2024-02-01 to
    2024-02-28. *)
Lemma date_filter_spec_witness :
  sample_record "Jane Roe" "2024-03-01" ""
  ∉ _filter_records [sample_record "Jane Roe" "2024-03-01" ""] ∅
      (mk_criteria (Some (PyDate.mk_datetime 2024 2 1 0))
                   (Some (PyDate.mk_datetime 2024 2 28 0)) None).
Proof.
  apply (proj1 (proj2 (proj2 (proj2 (proj2 (proj2 (proj2 date_filter_spec))))))
           (mk_criteria (Some (PyDate.mk_datetime 2024 2 1 0))
                        (Some (PyDate.mk_datetime 2024 2 28 0)) None)
           (sample_record "Jane Roe" "2024-03-01" "")
           (PyDate.mk_datetime 2024 3 1 0)).
  - reflexivity.
  - right. exists (PyDate.mk_datetime 2024 2 28 0). split; reflexivity.
Defined.

(** ** The record parser *)

Section ParserFacts.

Variable re_search : string → string → re_flags → option string.

Lemma truthy_nonempty (s : string) : PyStr.truthy s = true ↔ s ≠ "".
Proof. by destruct s. Qed.

Lemma extract_record_data_Some (b : block) (county_name now : string)
    (r : record) :
  _extract_record_data re_search b county_name now = Some r
  ↔ r = build_record re_search b county_name now ∧ entry_name b ≠ "".
Proof.
  unfold _extract_record_data. cbn [name build_record].
  destruct (entry_name b) eqn:Hn; cbn [PyStr.truthy].
  - split; [done | by intros [_ ?]].
  - split; [by intros [= <-] | by intros [-> _]].
Qed.

Lemma extract_record_data_None (b : block) (county_name now : string) :
  _extract_record_data re_search b county_name now = None
  ↔ entry_name b = "".
Proof.
  unfold _extract_record_data. cbn [name build_record].
  by destruct (entry_name b).
Qed.

Lemma elem_of_parse_entries (entries : list entry)
    (county_name : string) (now : nat → string) (i : nat) (r : record) :
  r ∈ parse_entries re_search entries county_name now i →
  ∃ b j, Block b ∈ entries
         ∧ r = build_record re_search b county_name (now j)
         ∧ entry_name b ≠ "".
Proof.
  revert i. induction entries as [|[|b] entries IH]; intros i;
    cbn [parse_entries].
  - by intros ?%elem_of_nil.
  - intros (b & j & Hb & Hr)%IH. exists b, j. split; [by right | done].
  - destruct (_extract_record_data re_search b county_name (now i))
      as [r'|] eqn:Hb.
    + intros [->|Hr]%elem_of_cons.
      * apply extract_record_data_Some in Hb as [-> Hn].
        exists b, i. split; [by left | done].
      * apply IH in Hr as (b' & j & Hb' & Hr).
        exists b', j. split; [by right | done].
    + intros (b' & j & Hb' & Hr)%IH.
      exists b', j. split; [by right | done].
Qed.

(** C3. Every record [_parse_page] returns has a non-empty name and was
    built from an entry of the page whose extracted name is non-empty;
    an entry whose extracted name is empty makes [_extract_record_data]
    return [None] and adds nothing to the page's records. *)
Theorem parser_never_emits_nameless (soup : document)
    (county_name : string) (now : nat → string) :
  Forall (λ r, name r ≠ "")
         (_parse_page re_search soup county_name now)
  ∧ (∀ r, r ∈ _parse_page re_search soup county_name now →
          ∃ b j, Block b ∈ select_entries soup
                 ∧ r = build_record re_search b county_name (now j)
                 ∧ entry_name b ≠ "")
  ∧ (∀ b t, entry_name b = "" →
            _extract_record_data re_search b county_name t = None)
  ∧ (∀ b entries i,
       entry_name b = "" →
       parse_entries re_search (Block b :: entries) county_name now i
       = parse_entries re_search entries county_name now (S i)).
Proof.
  split_and!.
  - apply Forall_forall. intros r (b & j & _ & -> & Hn)%elem_of_parse_entries.
    done.
  - intros r. apply elem_of_parse_entries.
  - intros b t. apply extract_record_data_None.
  - intros b entries i Hb. cbn [parse_entries].
    by rewrite (proj2 (extract_record_data_None b county_name (now i)) Hb).
Qed.

End ParserFacts.

(** ** Runs of the page loop *)

Section RunFacts.

Variable re_search : string → string → re_flags → option string.
Variable w : world.

Lemma page_loop_S (n page : nat) (url county_name : string)
    (cached_ids : gset string) (c : criteria) (acc : accum)
    (dir : gmap string cache_file) :
  page_loop re_search w (S n) page url county_name cached_ids c acc dir
  = match fetch w (page_url url page) with
    | FetchFailed =>
        (acc, dir,
         [Log INFO (MsgScrapingPage page); HttpGet (page_url url page);
          Log ERROR (MsgErrorFetching page)])
    | Unparsable =>
        let rest := page_loop re_search w n (S page) url county_name
                              cached_ids c acc dir in
        (value_of rest, dir_of rest,
         [Log INFO (MsgScrapingPage page); HttpGet (page_url url page);
          Log ERROR (MsgErrorParsing page)] ++ trace_of rest)
    | Page soup =>
        match _parse_page re_search soup county_name
                (clock w (page_url url page)) with
        | [] =>
            (acc, dir,
             [Log INFO (MsgScrapingPage page); HttpGet (page_url url page);
              Log INFO (MsgNoMoreRecords page)])
        | records =>
            let kept := _filter_records records cached_ids c in
            let rest :=
              page_loop re_search w n (S page) url county_name cached_ids c
                (mk_accum (all_records acc ++ kept)
                          (new_record_ids acc ∪ ids_of kept)) dir in
            (value_of rest, dir_of rest,
             [Log INFO (MsgScrapingPage page); HttpGet (page_url url page);
              Log INFO (MsgFoundNew (length kept) page); Sleep 2]
             ++ trace_of rest)
        end
    end.
Proof.
  cbn [page_loop]. unfold mbind, M_bind, mret, M_ret, log, emit.
  destruct (fetch w (page_url url page)) as [| |soup]; [done| |].
  - by destruct (page_loop _ _ _ _ _ _ _ _ _ _) as [[a d] t].
  - destruct (_parse_page _ _ _ _) as [|r records]; [done|].
    cbn zeta. unfold ids_of.
    by destruct (page_loop _ _ _ _ _ _ _ _ _ _) as [[a d] t].
Qed.

Lemma ids_of_app (l1 l2 : list record) :
  ids_of (l1 ++ l2) = ids_of l1 ∪ ids_of l2.
Proof. unfold ids_of. rewrite fmap_app. set_solver. Qed.

Lemma ids_of_nil : ids_of [] = ∅.
Proof. done. Qed.

Lemma ids_of_empty (l : list record) : ids_of l = ∅ ↔ l = [].
Proof.
  split; [|by intros ->]. destruct l as [|r l]; [done|].
  unfold ids_of. cbn. set_solver.
Qed.


(** What the page loop computes: it adds to its accumulators the kept
    records of the pages it reads and their ids, leaves the cache
    directory alone and never calls [save_cache]. *)
Lemma page_loop_run (n page : nat) (url county_name : string)
    (cached_ids : gset string) (c : criteria) (acc : accum)
    (dir : gmap string cache_file) :
  let run := page_loop re_search w n page url county_name cached_ids c
                       acc dir in
  let kept :=
    concat ((λ rs, _filter_records rs cached_ids c)
            <$> parsed_pages re_search w n page url county_name) in
  all_records (value_of run) = all_records acc ++ kept
  ∧ new_record_ids (value_of run) = new_record_ids acc ∪ ids_of kept
  ∧ dir_of run = dir
  ∧ saves_of (trace_of run) = [].
Proof.
  cbn zeta. revert page acc. induction n as [|n IH]; intros page acc.
  - cbn [page_loop parsed_pages fmap list_fmap concat].
    rewrite app_nil_r, ids_of_nil, (right_id_L ∅ (∪)). done.
  - rewrite page_loop_S. cbn [parsed_pages].
    destruct (fetch w (page_url url page)) as [| |soup].
    + cbn [fmap list_fmap concat].
      rewrite app_nil_r, ids_of_nil, (right_id_L ∅ (∪)). done.
    + cbn zeta. destruct (IH (S page) acc) as (Hr & Hi & Hd & Hs).
      split_and!; [done..|]. unfold trace_of at 1. cbn [snd].
      unfold saves_of in *. by rewrite omap_app, Hs.
    + destruct (_parse_page _ _ _ _) as [|r records] eqn:Hp.
      * cbn [fmap list_fmap concat].
        rewrite app_nil_r, ids_of_nil, (right_id_L ∅ (∪)). done.
      * cbn zeta.
        destruct (IH (S page)
                    (mk_accum
                       (all_records acc
                        ++ _filter_records (r :: records) cached_ids c)
                       (new_record_ids acc
                        ∪ ids_of (_filter_records (r :: records) cached_ids c))))
          as (Hr & Hi & Hd & Hs).
        cbn [fmap list_fmap concat]. rewrite ids_of_app.
        cbn [all_records new_record_ids] in Hr, Hi.
        split_and!.
        -- unfold value_of at 1. cbn [fst]. rewrite Hr.
           by rewrite <- app_assoc.
        -- unfold value_of at 1. cbn [fst]. rewrite Hi.
           by rewrite (assoc_L (∪)).
        -- done.
        -- unfold trace_of at 1. cbn [snd].
           unfold saves_of in *. by rewrite omap_app, Hs.
Qed.

End RunFacts.

(** ** Runs of [scrape_county] *)

Section CountyFacts.
Variable re_search : string → string → re_flags → option string.
Variable w : world.

Lemma value_of_run {A} (a : A) (d : gmap string cache_file)
    (t : list event) : value_of (a, d, t) = a.
Proof. done. Qed.

Lemma dir_of_run {A} (a : A) (d : gmap string cache_file)
    (t : list event) : dir_of (a, d, t) = d.
Proof. done. Qed.

Lemma trace_of_run {A} (a : A) (d : gmap string cache_file)
    (t : list event) : trace_of (a, d, t) = t.
Proof. done. Qed.

Lemma bind_eq {A B} (m : M A) (f : A → M B) (dir d d' : gmap string cache_file)
    (a : A) (b : B) (t t' : list event) :
  m dir = (a, d, t) → f a d = (b, d', t') → (m ≫= f) dir = (b, d', t ++ t').
Proof. unfold mbind, M_bind. by intros -> ->. Qed.

Lemma load_cache_run (cn : string) (dir : gmap string cache_file) :
  ∃ t, load_cache cn dir = (stored_ids dir cn, dir, t) ∧ quiet t.
Proof.
  unfold load_cache, stored_ids, read_file, mbind, M_bind, mret, M_ret, log, emit.
  destruct (dir !! cn) as [[ids|]|]; eexists; split; try reflexivity; done.
Qed.

Lemma log_filters_run (c : criteria) (dir : gmap string cache_file) :
  ∃ t, log_filters c dir = (tt, dir, t) ∧ quiet t.
Proof.
  unfold log_filters, when, mbind, M_bind, mret, M_ret, log, emit.
  destruct (date_from c), (date_to c), (keywords_truthy _);
    eexists; split; try reflexivity; done.
Qed.

Lemma save_cache_run (cn : string) (ids : gset string) (dir : gmap string cache_file) :
  ∃ t, save_cache w cn ids dir
       = (tt,
          match cache_write w cn with
          | WriteOk => <[cn := FileIds (elements ids)]> dir
          | WriteRaises true => <[cn := FileBad]> dir
          | WriteRaises false => dir
          end,
          SaveCache cn ids :: t)
       ∧ quiet t.
Proof.
  unfold save_cache, write_file, when, mbind, M_bind, mret, M_ret, log, emit.
  destruct (cache_write w cn) as [|[|]]; eexists; split; try reflexivity; done.
Qed.

Lemma quiet_app (t1 t2 : list event) : quiet t1 → quiet t2 → quiet (t1 ++ t2).
Proof.
  unfold quiet, saves_of, requests_of, errors_of.
  intros (H1 & H2 & H3) (H4 & H5 & H6). rewrite !omap_app.
  by rewrite H1, H2, H3, H4, H5, H6.
Qed.

Lemma scrape_county_unfold cn slug max_pages c skip dir :
dict_get counties (PyStr.lower cn) = Some slug →
∃ pre post, quiet pre ∧ quiet post ∧
  let cached := start_ids dir cn skip in
  let loop := page_loop re_search w max_pages 1 (county_url slug) cn cached c (mk_accum [] ∅) dir in
  let acc := value_of loop in
  scrape_county re_search w cn max_pages c skip dir 
  = if skip && negb (bool_decide (new_record_ids acc = ∅)) then
      (all_records acc, 
          match cache_write w cn with
          | WriteOk => <[cn := FileIds (elements (cached ∪ new_record_ids acc))]> dir
          | WriteRaises true => <[cn := FileBad]> dir
          | WriteRaises false => dir
          end, pre ++ trace_of loop ++ SaveCache cn (cached ∪ new_record_ids acc) :: post)
    else (all_records acc, dir, pre ++ trace_of loop ++ post).
Proof.
  intros Hslug. unfold scrape_county. rewrite Hslug.
  assert (Hload : ∃ t, (if skip then load_cache cn else mret ∅) dir = (start_ids dir cn skip, dir, t) ∧ quiet t).
  { destruct skip; [apply load_cache_run|]. by exists []. }
  destruct Hload as (t0 & Hload & Hq0).
  destruct (log_filters_run c dir) as (t1 & Hlog & Hq1).
  pose proof (page_loop_run re_search w max_pages 1 (county_url slug) cn (start_ids dir cn skip) c (mk_accum [] ∅) dir) as (_ & _ & Hd & _).
  cbn zeta in Hd.
  cbn zeta.
  destruct (page_loop re_search w max_pages 1 (county_url slug) cn (start_ids dir cn skip) c (mk_accum [] ∅) dir) as [[acc d'] t] eqn:Hloop.
  unfold dir_of in Hd. cbn [fst snd] in Hd. subst d'.
  unfold value_of, trace_of. cbn [fst snd].
  destruct (skip && negb (bool_decide (new_record_ids acc = ∅))) eqn:Hb.
  - destruct (save_cache_run cn (start_ids dir cn skip ∪ new_record_ids acc) dir) as (ts & Hsave & Hqs).
    exists (t0 ++ Log INFO (MsgStarting (PyStr.title cn)) :: t1),
           (ts ++ [Log INFO (MsgTotalNew cn (length (all_records acc)))]).
    split_and!.
    + apply quiet_app; [done|]. by apply (quiet_app [_]).
    + by apply quiet_app.
    + eapply eq_trans.
      { eapply bind_eq; [exact Hload|]. eapply bind_eq; [reflexivity|].
        eapply bind_eq; [exact Hlog|]. eapply bind_eq; [exact Hloop|].
        rewrite Hb. cbn [when]. eapply bind_eq; [exact Hsave|].
        eapply bind_eq; reflexivity. }
      f_equal. rewrite <- !app_assoc. cbn [app]. done.
  - exists (t0 ++ Log INFO (MsgStarting (PyStr.title cn)) :: t1),
           [Log INFO (MsgTotalNew cn (length (all_records acc)))].
    split_and!.
    + apply quiet_app; [done|]. by apply (quiet_app [_]).
    + done.
    + eapply eq_trans.
      { eapply bind_eq; [exact Hload|]. eapply bind_eq; [reflexivity|].
        eapply bind_eq; [exact Hlog|]. eapply bind_eq; [exact Hloop|].
        rewrite Hb. cbn [when]. eapply bind_eq; [reflexivity|].
        eapply bind_eq; reflexivity. }
      f_equal. rewrite <- !app_assoc. cbn [app]. done.
Qed.


Lemma scrape_county_unsupported (cn : string) (max_pages : nat)
    (c : criteria) (skip : bool) (dir : gmap string cache_file) :
  dict_get counties (PyStr.lower cn) = None →
  scrape_county re_search w cn max_pages c skip dir
  = ([], dir, [Log ERROR (MsgNotSupported cn)]).
Proof. intros Hslug. unfold scrape_county. by rewrite Hslug. Qed.

(** A run of [scrape_county] on a supported county, read off the pages
    it parses. *)
Lemma scrape_county_run (cn slug : string) (max_pages : nat)
    (c : criteria) (skip : bool) (dir : gmap string cache_file) :
  dict_get counties (PyStr.lower cn) = Some slug →
  let cached := start_ids dir cn skip in
  let kept :=
    concat ((λ rs, _filter_records rs cached c)
            <$> parsed_pages re_search w max_pages 1 (county_url slug) cn) in
  let loop := page_loop re_search w max_pages 1 (county_url slug) cn
                        cached c (mk_accum [] ∅) dir in
  let run := scrape_county re_search w cn max_pages c skip dir in
  value_of run = kept
  ∧ dir_of run
    = (if skip && negb (bool_decide (kept = [])) then
         match cache_write w cn with
         | WriteOk => <[cn := FileIds (elements (cached ∪ ids_of kept))]> dir
         | WriteRaises true => <[cn := FileBad]> dir
         | WriteRaises false => dir
         end
       else dir)
  ∧ saves_of (trace_of run)
    = (if skip && negb (bool_decide (kept = []))
       then [(cn, cached ∪ ids_of kept)] else [])
  ∧ requests_of (trace_of run) = requests_of (trace_of loop)
  ∧ errors_of (trace_of run) = errors_of (trace_of loop).
Proof.
  intros Hslug. cbn zeta.
  destruct (scrape_county_unfold cn slug max_pages c skip dir Hslug)
    as (pre & post & (Hp1 & Hp2 & Hp3) & (Hq1 & Hq2 & Hq3) & Hrun).
  cbn zeta in Hrun.
  destruct (page_loop_run re_search w max_pages 1 (county_url slug) cn
              (start_ids dir cn skip) c (mk_accum [] ∅) dir)
    as (Hrec & Hids & _ & Hsaves).
  cbn [all_records new_record_ids app] in Hrec, Hids.
  rewrite (left_id_L ∅ (∪)) in Hids.
  set (kept := concat _) in *.
  set (loop := page_loop _ _ _ _ _ _ _ _ _ _) in *.
  assert (Hcond : bool_decide (new_record_ids (value_of loop) = ∅)
                  = bool_decide (kept = [])).
  { apply bool_decide_ext. rewrite Hids. apply ids_of_empty. }
  rewrite Hcond, Hids, Hrec in Hrun. rewrite Hrun.
  unfold saves_of, requests_of, errors_of in *.
  destruct (skip && negb (bool_decide (kept = [])));
    rewrite value_of_run, dir_of_run, trace_of_run;
    rewrite ?omap_app, ?Hp1, ?Hp2, ?Hp3, ?Hsaves; cbn [omap list_omap];
    rewrite ?Hq1, ?Hq2, ?Hq3, ?app_nil_r; cbn [app]; done.
Qed.

End CountyFacts.

(** ** Decisions within one run *)

Lemma concat_filter {A} (P : A → Prop) `{!∀ x, Decision (P x)}
    (ls : list (list A)) :
  concat (filter P <$> ls) = filter P (concat ls).
Proof.
  induction ls as [|l ls IH]; [done|].
  cbn [fmap list_fmap concat]. by rewrite filter_app, IH.
Qed.


Section SingleRun.

Variable re_search : string → string → re_flags → option string.
Variable w : world.

Lemma scrape_county_filter (cn slug : string) (max_pages : nat)
    (c : criteria) (skip : bool) (dir : gmap string cache_file) :
  dict_get counties (PyStr.lower cn) = Some slug →
  value_of (scrape_county re_search w cn max_pages c skip dir)
  = filter (λ r, record_passes (start_ids dir cn skip) c r = true)
           (concat (parsed_pages re_search w max_pages 1 (county_url slug) cn)).
Proof.
  intros Hslug.
  destruct (scrape_county_run re_search w cn slug max_pages c skip dir Hslug)
    as (-> & _).
  rewrite <- concat_filter. f_equal. apply list_fmap_ext.
  intros i rs _. apply filter_records_filter.
Qed.



End SingleRun.

(** ** Two runs in sequence *)


Lemma generate_record_id_erase_time (r : record) :
  generate_record_id (erase_time r) = generate_record_id r.
Proof. done. Qed.

Section TwoClocks.

Variable re_search : string → string → re_flags → option string.




End TwoClocks.


Lemma record_passes_subset (s1 s2 : gset string) (c : criteria) (r : record) :
  s1 ⊆ s2 → record_passes s2 c r = true → record_passes s1 c r = true.
Proof.
  rewrite !record_passes_true. unfold in_cache.
  rewrite !bool_decide_eq_false. intros Hsub (Hnot & Hd & Hc).
  split_and!; [|done..]. intros Hin. apply Hnot. by apply Hsub.
Qed.


(** ** A two-page source *)

Lemma page_url_1 (url : string) : page_url url 1 = url.
Proof. done. Qed.

Lemma page_url_2 (url : string) : page_url url 2 = url +:+ "page/2/".
Proof. done. Qed.

Lemma filter_records_no_criteria (records : list record) :
  _filter_records records ∅ no_criteria = records.
Proof.
  rewrite filter_records_filter. induction records as [|r records IH]; [done|].
  rewrite filter_cons, decide_True, IH; [done|].
  apply record_passes_true. split_and!; [|done..].
  unfold in_cache. apply bool_decide_eq_false, not_elem_of_empty.
Qed.

Section TwoPages.

Variable re_search : string → string → re_flags → option string.
Variable w : world.

Lemma extract_named (b : block) (cn now : string) :
  entry_name b ≠ "" →
  _extract_record_data re_search b cn now
  = Some (build_record re_search b cn now).
Proof. intros Hb. by apply extract_record_data_Some. Qed.

Lemma extract_nameless (b : block) (cn now : string) :
  entry_name b = "" → _extract_record_data re_search b cn now = None.
Proof. apply extract_record_data_None. Qed.

(** C8. A supported source whose first page holds three entries with a
    name and one without (at any place among them), whose second page
    parses to no record, scraped with a page limit of at least two, no
    stored ids and no criteria: [scrape_county] returns the three
    records built from the named entries, in page order; it requests
    the first and the second page and nothing else, and logs no
    error. *)
Theorem two_page_source (cn slug : string) (max_pages : nat) (skip : bool)
    (dir : gmap string cache_file) (d1 d2 : document)
    (b1 b2 b3 b4 : block) (k : nat) :
  dict_get counties (PyStr.lower cn) = Some slug →
  (2 ≤ max_pages)%nat →
  start_ids dir cn skip = ∅ →
  fetch w (county_url slug) = Page d1 →
  fetch w (county_url slug +:+ "page/2/") = Page d2 →
  select_entries d1
  = take k [Block b1; Block b2; Block b3]
    ++ Block b4 :: drop k [Block b1; Block b2; Block b3] →
  entry_name b1 ≠ "" → entry_name b2 ≠ "" → entry_name b3 ≠ "" →
  entry_name b4 = "" →
  _parse_page re_search d2 cn (clock w (county_url slug +:+ "page/2/")) = [] →
  let run := scrape_county re_search w cn max_pages no_criteria skip dir in
  let stamp i := clock w (county_url slug) (if (i <? k)%nat then i else S i) in
  value_of run
  = [build_record re_search b1 cn (stamp 0%nat);
     build_record re_search b2 cn (stamp 1%nat);
     build_record re_search b3 cn (stamp 2%nat)]
  ∧ requests_of (trace_of run)
    = [county_url slug; county_url slug +:+ "page/2/"]
  ∧ errors_of (trace_of run) = [].
Proof.
  intros Hslug Hmax Hids Hf1 Hf2 Hentries Hb1 Hb2 Hb3 Hb4 Hp2. cbn zeta.
  destruct max_pages as [|[|n]]; [lia | lia |].
  assert (Hp1 : _parse_page re_search d1 cn (clock w (county_url slug))
                = [build_record re_search b1 cn
                     (clock w (county_url slug) (if (0 <? k)%nat then 0 else 1)%nat);
                   build_record re_search b2 cn
                     (clock w (county_url slug) (if (1 <? k)%nat then 1 else 2)%nat);
                   build_record re_search b3 cn
                     (clock w (county_url slug) (if (2 <? k)%nat then 2 else 3)%nat)]).
  { unfold _parse_page. rewrite Hentries.
    destruct k as [|[|[|k]]]; cbn [firstn skipn app parse_entries Nat.ltb Nat.leb];
      rewrite ?take_nil, ?drop_nil; cbn [app parse_entries];
      rewrite !(extract_nameless b4 cn _ Hb4), !(extract_named b1 cn _ Hb1),
        !(extract_named b2 cn _ Hb2), !(extract_named b3 cn _ Hb3);
      reflexivity. }
  destruct (scrape_county_run re_search w cn slug (S (S n)) no_criteria skip
              dir Hslug) as (-> & _ & _ & -> & ->).
  rewrite Hids. cbn [parsed_pages].
  rewrite page_loop_S, !page_url_1, !page_url_2, Hf1, Hf2, Hp1, Hp2.
  cbn zeta. rewrite page_loop_S, page_url_2, Hf2, Hp2.
  cbn [fmap list_fmap concat]. rewrite !filter_records_no_criteria.
  rewrite !value_of_run, !trace_of_run.
  split_and!; done.
Qed.

End TwoPages.

(** ** Fetch failures *)

Lemma last_cons_Some {A} (x y : A) (l : list A) :
  last l = Some y → last (x :: l) = Some y.
Proof. by destruct l. Qed.

Section FetchFailure.

Variable re_search : string → string → re_flags → option string.
Variable w : world.

Lemma errors_of_app (t1 t2 : list event) :
  errors_of (t1 ++ t2) = errors_of t1 ++ errors_of t2.
Proof. apply omap_app. Qed.

Lemma requests_of_app (t1 t2 : list event) :
  requests_of (t1 ++ t2) = requests_of t1 ++ requests_of t2.
Proof. apply omap_app. Qed.

(** The page loop when the pages [page], ..., [page + k - 1] let it go
    on and the fetch of page [page + k] fails: it requests these
    [k + 1] pages once each, in order, its last error is the fetch
    error of page [page + k], and it returns what it kept from the
    pages before. *)
Lemma page_loop_fetch_failure (k n page : nat) (url cn : string)
    (cached_ids : gset string) (c : criteria) (acc : accum)
    (dir : gmap string cache_file) :
  (k < n)%nat →
  (∀ p, (page ≤ p < page + k)%nat →
        page_goes_on re_search w url cn p = true) →
  fetch w (page_url url (page + k)) = FetchFailed →
  let run := page_loop re_search w n page url cn cached_ids c acc dir in
  all_records (value_of run)
  = all_records acc
    ++ concat (page_kept re_search w url cn cached_ids c <$> seq page k)
  ∧ requests_of (trace_of run) = page_url url <$> seq page (S k)
  ∧ last (errors_of (trace_of run)) = Some (MsgErrorFetching (page + k)).
Proof.
  cbn zeta. revert n page acc.
  induction k as [|k IH]; intros n page acc Hn Hgo Hfail.
  - destruct n as [|n]; [lia|]. rewrite Nat.add_0_r in *.
    rewrite page_loop_S, Hfail, value_of_run, trace_of_run.
    cbn [seq fmap list_fmap concat]. by rewrite app_nil_r.
  - destruct n as [|n]; [lia|].
    assert (Hpage : page_goes_on re_search w url cn page = true)
      by (apply Hgo; lia).
    assert (Hgo' : ∀ p, (S page ≤ p < S page + k)%nat →
                   page_goes_on re_search w url cn p = true)
      by (intros p Hp; apply Hgo; lia).
    assert (Hfail' : fetch w (page_url url (S page + k)) = FetchFailed)
      by (by replace (S page + k)%nat with (page + S k)%nat by lia).
    replace (page + S k)%nat with (S page + k)%nat by lia.
    rewrite page_loop_S. unfold page_goes_on in Hpage.
    change (seq page (S k)) with (page :: seq (S page) k).
    change (seq page (S (S k))) with (page :: seq (S page) (S k)).
    cbn [fmap list_fmap concat]. unfold page_kept at 1.
    destruct (fetch w (page_url url page)) as [| |soup]; [done| |].
    + cbn zeta.
      destruct (IH n (S page) acc ltac:(lia) Hgo' Hfail') as (Hr & Hq & He).
      rewrite value_of_run, trace_of_run.
      split_and!; [done | |].
      * rewrite (requests_of_app [_; _; _]). by rewrite Hq.
      * rewrite (errors_of_app [_; _; _]). by apply last_cons_Some.
    + destruct (_parse_page re_search soup cn (clock w (page_url url page)))
        as [|r records]; [done|].
      cbn zeta.
      destruct (IH n (S page)
                  (mk_accum
                     (all_records acc
                      ++ _filter_records (r :: records) cached_ids c)
                     (new_record_ids acc
                      ∪ ids_of (_filter_records (r :: records) cached_ids c)))
                  ltac:(lia) Hgo' Hfail') as (Hr & Hq & He).
      rewrite value_of_run, trace_of_run.
      split_and!.
      * rewrite Hr. cbn [all_records]. by rewrite <- app_assoc.
      * rewrite (requests_of_app [_; _; _; _]). by rewrite Hq.
      * by rewrite (errors_of_app [_; _; _; _]).
Qed.

End FetchFailure.

(** ** Runs over all counties *)

Lemma counties_keys (cn slug : string) :
  (cn, slug) ∈ counties → dict_get counties (PyStr.lower cn) = Some slug.
Proof.
  unfold counties. intros Hin.
  repeat (apply elem_of_cons in Hin as [[= -> ->]|Hin]; [reflexivity|]).
  by apply elem_of_nil in Hin.
Qed.

Lemma counties_NoDup : NoDup (counties.*1).
Proof. by apply (bool_decide_unpack _). Qed.

Section AllCounties.

Variable re_search : string → string → re_flags → option string.
Variable w : world.

Lemma scrape_county_other_files (cn cn' : string) (max_pages : nat)
    (c : criteria) (skip : bool) (dir : gmap string cache_file) :
  cn' ≠ cn →
  dir_of (scrape_county re_search w cn max_pages c skip dir) !! cn'
  = dir !! cn'.
Proof.
  intros Hne.
  destruct (dict_get counties (PyStr.lower cn)) as [slug|] eqn:Hslug.
  - destruct (scrape_county_run re_search w cn slug max_pages c skip dir Hslug)
      as (_ & -> & _).
    destruct (skip && _); [|done].
    destruct (cache_write w cn) as [|[|]];
      by rewrite ?lookup_insert_ne by done.
  - by rewrite (scrape_county_unsupported _ _ _ _ _ _ _ Hslug).
Qed.

Lemma scrape_county_value_ext (cn : string) (max_pages : nat)
    (c : criteria) (skip : bool) (d1 d2 : gmap string cache_file) :
  d1 !! cn = d2 !! cn →
  value_of (scrape_county re_search w cn max_pages c skip d1)
  = value_of (scrape_county re_search w cn max_pages c skip d2).
Proof.
  intros Hd.
  destruct (dict_get counties (PyStr.lower cn)) as [slug|] eqn:Hslug.
  - rewrite !(scrape_county_filter _ _ _ _ _ _ _ _ Hslug).
    unfold start_ids, stored_ids. by rewrite Hd.
  - by rewrite !(scrape_county_unsupported _ _ _ _ _ _ _ Hslug).
Qed.

Lemma scrape_county_first_request (cn slug : string) (max_pages : nat)
    (c : criteria) (skip : bool) (dir : gmap string cache_file) :
  dict_get counties (PyStr.lower cn) = Some slug →
  (1 ≤ max_pages)%nat →
  county_url slug
  ∈ requests_of (trace_of (scrape_county re_search w cn max_pages c skip dir)).
Proof.
  intros Hslug Hmax. destruct max_pages as [|n]; [lia|].
  destruct (scrape_county_run re_search w cn slug (S n) c skip dir Hslug)
    as (_ & _ & _ & -> & _).
  rewrite page_loop_S, page_url_1.
  destruct (fetch w (county_url slug)) as [| |soup].
  - rewrite trace_of_run. by left.
  - cbn zeta. rewrite trace_of_run, (requests_of_app [_; _; _]). by left.
  - destruct (_parse_page _ _ _ _).
    + rewrite trace_of_run. by left.
    + cbn zeta. rewrite trace_of_run, (requests_of_app [_; _; _; _]). by left.
Qed.

Lemma csv_step_run (records : list record) (cn : string)
    (dir : gmap string cache_file) :
  ∃ t, when (negb (bool_decide (records = [])))
            (save_to_csv records cn) dir = (tt, dir, t)
       ∧ quiet t.
Proof.
  destruct records as [|r records]; eexists; split; try reflexivity; done.
Qed.

(** One turn of the loop over the counties. *)
Lemma counties_loop_cons (cn : string) (names : list string)
    (max_pages : nat) (c : criteria) (skip : bool)
    (results : list (string * list record)) (dir : gmap string cache_file) :
  ∃ pre mid, quiet pre ∧ quiet mid ∧
    let r := scrape_county re_search w cn max_pages c skip dir in
    let rest := counties_loop re_search w names max_pages c skip
                  (results ++ [(cn, value_of r)]) (dir_of r) in
    counties_loop re_search w (cn :: names) max_pages c skip results dir
    = (value_of rest, dir_of rest,
       pre ++ trace_of r ++ mid ++ trace_of rest).
Proof.
  cbn zeta. cbn [counties_loop].
  destruct (scrape_county re_search w cn max_pages c skip dir)
    as [[records d] t] eqn:Hr.
  rewrite value_of_run, dir_of_run, trace_of_run.
  destruct (csv_step_run records cn d) as (tc & Hcsv & Hqc).
  destruct (counties_loop re_search w names max_pages c skip
              (results ++ [(cn, records)]) d) as [[v d'] t'] eqn:Hrest.
  rewrite value_of_run, dir_of_run, trace_of_run.
  exists [Log INFO MsgRule; Log INFO (MsgProcessing (PyStr.title cn));
          Log INFO MsgRule], (tc ++ [Sleep 3]).
  split_and!; [done | by apply quiet_app |].
  eapply eq_trans.
  { eapply bind_eq; [reflexivity|]. eapply bind_eq; [reflexivity|].
    eapply bind_eq; [reflexivity|]. eapply bind_eq; [exact Hr|].
    eapply bind_eq; [exact Hcsv|]. eapply bind_eq; [reflexivity|].
    exact Hrest. }
  f_equal. by rewrite <- !app_assoc.
Qed.

Lemma counties_loop_value (dir0 : gmap string cache_file)
    (max_pages : nat) (c : criteria) (skip : bool) (names : list string) :
  NoDup names →
  ∀ results dir,
    (∀ cn, cn ∈ names → dir !! cn = dir0 !! cn) →
    value_of (counties_loop re_search w names max_pages c skip results dir)
    = results
      ++ ((λ cn, (cn, value_of (scrape_county re_search w cn max_pages c
                                  skip dir0))) <$> names).
Proof.
  induction 1 as [|cn names Hnotin Hnodup IH]; intros results dir Hdir.
  - cbn. by rewrite app_nil_r.
  - destruct (counties_loop_cons cn names max_pages c skip results dir)
      as (pre & mid & _ & _ & ->).
    rewrite value_of_run, IH.
    + rewrite <- app_assoc. cbn [fmap list_fmap app]. do 3 f_equal.
      apply (scrape_county_value_ext cn max_pages c skip dir dir0).
      apply (Hdir cn). by left.
    + intros cn' Hin.
      rewrite (scrape_county_other_files cn cn') by (by intros ->).
      apply (Hdir cn'). by right.
Qed.

Lemma counties_loop_requests (max_pages : nat) (c : criteria) (skip : bool)
    (names : list string) :
  (1 ≤ max_pages)%nat →
  ∀ results dir cn slug,
    cn ∈ names → dict_get counties (PyStr.lower cn) = Some slug →
    county_url slug
    ∈ requests_of (trace_of (counties_loop re_search w names max_pages c
                               skip results dir)).
Proof.
  intros Hmax. induction names as [|cn0 names IH];
    intros results dir cn slug Hin Hslug.
  - by apply elem_of_nil in Hin.
  - destruct (counties_loop_cons cn0 names max_pages c skip results dir)
      as (pre & mid & _ & _ & ->).
    rewrite trace_of_run, !requests_of_app, !elem_of_app.
    apply elem_of_cons in Hin as [->|Hin].
    + right. left. by apply scrape_county_first_request.
    + right. right. right. by apply (IH _ _ cn).
Qed.

End AllCounties.

(** C9, amended. When the fetch of page [N] of a supported source fails,
    after the pages before it let the loop go on: [scrape_county] has
    requested the pages 1 to [N] once each and no other page, the error
    is logged (the last error in the log is the fetch error of page [N])
    and not raised or returned, and the value returned is the list of the
    records kept from the pages before [N].  A run over all counties
    returns an entry for every
    county of the registry, in registry order, holding what
    [scrape_county] returns for that county from the same cache
    directory, and requests the first page of every county, whatever
    fails along the way. *)
Theorem fetch_failure_contained
    (re_search : string → string → re_flags → option string) (w : world)
    (max_pages : nat) (c : criteria) (skip : bool)
    (dir : gmap string cache_file) :
  (∀ cn slug N,
     dict_get counties (PyStr.lower cn) = Some slug →
     (1 ≤ N ≤ max_pages)%nat →
     (∀ p, (1 ≤ p < N)%nat →
           page_goes_on re_search w (county_url slug) cn p = true) →
     fetch w (page_url (county_url slug) N) = FetchFailed →
     let run := scrape_county re_search w cn max_pages c skip dir in
     value_of run
     = concat (page_kept re_search w (county_url slug) cn
                 (start_ids dir cn skip) c <$> seq 1 (N - 1))
     ∧ requests_of (trace_of run) = page_url (county_url slug) <$> seq 1 N
     ∧ last (errors_of (trace_of run)) = Some (MsgErrorFetching N))
  ∧ value_of (scrape_all_counties re_search w max_pages c skip dir)
    = (λ cn, (cn, value_of (scrape_county re_search w cn max_pages c skip dir)))
      <$> counties.*1
  ∧ ((1 ≤ max_pages)%nat →
     ∀ cn slug, (cn, slug) ∈ counties →
       county_url slug
       ∈ requests_of
           (trace_of (scrape_all_counties re_search w max_pages c skip dir))).
Proof.
  split_and!.
  - intros cn slug N Hslug HN Hgo Hfail. cbn zeta.
    destruct (scrape_county_run re_search w cn slug max_pages c skip dir Hslug)
      as (-> & _ & _ & -> & ->).
    destruct (page_loop_run re_search w max_pages 1 (county_url slug) cn
                (start_ids dir cn skip) c (mk_accum [] ∅) dir)
      as (Hkept & _).
    destruct (page_loop_fetch_failure re_search w (N - 1) max_pages 1
                (county_url slug) cn (start_ids dir cn skip) c
                (mk_accum [] ∅) dir) as (Hr & Hq & He).
    + lia.
    + intros p Hp. apply Hgo. lia.
    + by replace (1 + (N - 1))%nat with N by lia.
    + cbn [all_records app] in Hkept, Hr. rewrite <- Hkept, Hr.
      replace (S (N - 1)) with N in Hq by lia.
      replace (1 + (N - 1))%nat with N in He by lia. done.
  - unfold scrape_all_counties.
    rewrite (counties_loop_value re_search w dir); [done | | done].
    apply counties_NoDup.
  - intros Hmax cn slug Hin. unfold scrape_all_counties.
    apply (counties_loop_requests re_search w _ _ _ _ Hmax _ _ cn).
    + apply list_elem_of_fmap. by exists (cn, slug).
    + by apply counties_keys.
Qed.

(** ** The properties at the example data *)





(** C3 at an entry without a name element. *)
Lemma parser_never_emits_nameless_witness :
  _extract_record_data re_search_unlabelled (mk_block None None "")
    "nelson" "2024-01-02 09:00:00" = None.
Proof.
  apply (parser_never_emits_nameless re_search_unlabelled empty_page "nelson"
           (sample_clock nelson_url)).
  reflexivity.
Defined.

(** C8 at the two-page site, the nameless entry in second place. *)
Lemma two_page_source_witness :
  name <$> value_of (scrape_county re_search_unlabelled two_page_world
                       "nelson" 5 no_criteria true ∅)
  = ["John Doe"; "Jane Roe"; "Sam Poe"]
  ∧ requests_of (trace_of (scrape_county re_search_unlabelled two_page_world
                             "nelson" 5 no_criteria true ∅))
    = [nelson_url; nelson_url +:+ "page/2/"]
  ∧ errors_of (trace_of (scrape_county re_search_unlabelled two_page_world
                           "nelson" 5 no_criteria true ∅))
    = [].
Proof.
  destruct (two_page_source re_search_unlabelled two_page_world
              "nelson" "nelson-county" 5 true ∅ nelson_page_1 empty_page
              (mk_block (Some ["John Doe"]) None "John Doe")
              (mk_block (Some ["Jane Roe"]) None "Jane Roe")
              (mk_block (Some ["Sam Poe"]) None "Sam Poe")
              (mk_block None None "") 1) as (Hv & Hq & He).
  - reflexivity.
  - lia.
  - reflexivity.
  - reflexivity.
  - reflexivity.
  - reflexivity.
  - vm_compute. discriminate.
  - vm_compute. discriminate.
  - vm_compute. discriminate.
  - reflexivity.
  - reflexivity.
  - rewrite Hv, Hq, He. split_and!; reflexivity.
Defined.

(** C9, as stated, fails: the caller is not told of the error.  What
    [scrape_county] returns, and the cache directory it leaves, when the
    fetch of the second page fails are what it returns and leaves when
    the second page is there and has no record. *)
Lemma fetch_failure_not_returned :
  fetch failing_fetch_world (nelson_url +:+ "page/2/") = FetchFailed
  ∧ fetch two_page_world (nelson_url +:+ "page/2/") = Page empty_page
  ∧ value_of (scrape_county re_search_unlabelled failing_fetch_world "nelson"
                5 no_criteria true ∅)
    = value_of (scrape_county re_search_unlabelled two_page_world "nelson" 5
                  no_criteria true ∅)
  ∧ dir_of (scrape_county re_search_unlabelled failing_fetch_world "nelson"
              5 no_criteria true ∅)
    = dir_of (scrape_county re_search_unlabelled two_page_world "nelson" 5
                no_criteria true ∅).
Proof. split_and!; by vm_compute. Qed.

(** The amended C9 at a site whose second page cannot be fetched. *)
Lemma fetch_failure_contained_witness :
  name <$> value_of (scrape_county re_search_unlabelled failing_fetch_world
                       "nelson" 5 no_criteria true ∅)
  = ["John Doe"; "Jane Roe"; "Sam Poe"]
  ∧ requests_of (trace_of (scrape_county re_search_unlabelled
                             failing_fetch_world "nelson" 5 no_criteria true ∅))
    = [nelson_url; nelson_url +:+ "page/2/"]
  ∧ last (errors_of (trace_of (scrape_county re_search_unlabelled
                                 failing_fetch_world "nelson" 5 no_criteria
                                 true ∅)))
    = Some (MsgErrorFetching 2).
Proof.
  destruct (proj1 (fetch_failure_contained re_search_unlabelled
                     failing_fetch_world 5 no_criteria true ∅)
              "nelson" "nelson-county" 2%nat) as (Hv & Hq & He).
  - reflexivity.
  - lia.
  - intros p Hp. assert (p = 1%nat) as -> by lia. reflexivity.
  - reflexivity.
  - rewrite Hv, Hq, He. split_and!; reflexivity.
Defined.


(** * Further properties of the code *)

(** ** The cache file *)



(** ** More on the filter *)

(** X2. Filtering the output of [_filter_records] again, with the same
    cache set and criteria, gives the same list. *)
Theorem filter_records_idempotent (records : list record)
    (cached_ids : gset string) (c : criteria) :
  _filter_records (_filter_records records cached_ids c) cached_ids c
  = _filter_records records cached_ids c.
Proof.
  rewrite !filter_records_filter, list_filter_filter.
  apply list_filter_iff. tauto.
Qed.

(** X3. Filtering page by page gives what filtering all records at once
    gives. *)
Theorem filter_records_app (records1 records2 : list record)
    (cached_ids : gset string) (c : criteria) :
  _filter_records (records1 ++ records2) cached_ids c
  = _filter_records records1 cached_ids c
    ++ _filter_records records2 cached_ids c.
Proof. rewrite !filter_records_filter. apply filter_app. Qed.

(** X4. No record [_filter_records] returns has its id in the cache set,
    and a larger cache set only removes records: the output for the
    larger set is a sub-sequence of the output for the smaller one. *)
Theorem filter_records_cache (records : list record)
    (cached_ids more_ids : gset string) (c : criteria) :
  Forall (λ r, generate_record_id r ∉ cached_ids)
         (_filter_records records cached_ids c)
  ∧ sublist (_filter_records records (cached_ids ∪ more_ids) c)
            (_filter_records records cached_ids c).
Proof.
  split.
  - apply Forall_forall.
    intros r [_ (Hc & _)%record_passes_true]%elem_of_filter_records.
    unfold in_cache in Hc. by apply bool_decide_eq_false in Hc.
  - rewrite !filter_records_filter.
    induction records as [|r records IH]; [done|].
    rewrite !filter_cons.
    destruct (decide (record_passes (cached_ids ∪ more_ids) c r = true))
      as [Hr|Hr].
    + rewrite decide_True; [by apply sublist_skip|].
      by apply (record_passes_subset cached_ids (cached_ids ∪ more_ids));
        [apply union_subseteq_l|].
    + destruct (decide (record_passes cached_ids c r = true));
        [by apply sublist_cons | done].
Qed.

Lemma contains_empty (hay : string) : PyStr.contains "" hay = true.
Proof. by destruct hay. Qed.

(** X5. An empty keyword list is no keyword filter: [charge_keywords=[]]
    gives the same output as [charge_keywords=None]; and so does a
    keyword list that contains the empty keyword, which matches every
    record. *)
Theorem filter_records_no_keywords (records : list record)
    (cached_ids : gset string) (f t : option datetime) :
  _filter_records records cached_ids (mk_criteria f t (Some []))
  = _filter_records records cached_ids (mk_criteria f t None)
  ∧ ∀ kws, "" ∈ kws →
      _filter_records records cached_ids (mk_criteria f t (Some kws))
      = _filter_records records cached_ids (mk_criteria f t None).
Proof.
  split; [|intros kws Hin]; rewrite !filter_records_filter;
    apply list_filter_iff; intros r;
    rewrite !record_passes_true; unfold date_check, charges_check;
    cbn [date_from date_to charge_keywords keywords_truthy default andb];
    [done|].
  destruct kws as [|kw kws]; [by apply elem_of_nil in Hin|].
  destruct (PyStr.truthy (charges r)); [|done].
  cbn [andb id].
  assert (Hex : existsb
                  (λ kw0, PyStr.contains (PyStr.lower kw0)
                            (PyStr.lower (charges r))) (kw :: kws) = true).
  { apply existsb_exists. exists "". split; [by apply list_elem_of_In|].
    apply contains_empty. }
  by rewrite Hex.
Qed.

(** X5 at the keyword list ["theft"; ""]. *)
Lemma filter_records_no_keywords_witness :
  _filter_records [sample_record "Jane Roe" "2024-01-02" "Speeding"] ∅
    (mk_criteria None None (Some ["theft"; ""]))
  = _filter_records [sample_record "Jane Roe" "2024-01-02" "Speeding"] ∅
      (mk_criteria None None None).
Proof.
  apply (filter_records_no_keywords
           [sample_record "Jane Roe" "2024-01-02" "Speeding"] ∅ None None).
  right. left.
Defined.

(** ** More on record ids *)

Lemma lower_char_not_upper (c : ascii) : PyStr.is_upper (PyStr.lower_char c) = false.
Proof. by destruct c as [[] [] [] [] [] [] [] []]. Qed.

Lemma lower_char_space (c : ascii) :
  Ascii.eqb (PyStr.lower_char c) " " = Ascii.eqb c " ".
Proof. by destruct c as [[] [] [] [] [] [] [] []]. Qed.

Lemma lower_replace_space (s : string) :
  PyStr.lower (PyStr.replace_char " " "_" s)
  = PyStr.replace_char " " "_" (PyStr.lower s).
Proof.
  induction s as [|ch s IH]; [done|].
  cbn [PyStr.lower PyStr.replace_char]. rewrite IH, lower_char_space.
  by destruct (Ascii.eqb ch " ").
Qed.

Lemma replace_space_idemp (s : string) :
  PyStr.replace_char " " "_" (PyStr.replace_char " " "_" s)
  = PyStr.replace_char " " "_" s.
Proof.
  induction s as [|ch s IH]; [done|].
  cbn [PyStr.replace_char]. rewrite IH.
  by destruct (Ascii.eqb ch " ") eqn:Hc; [|rewrite Hc].
Qed.

Lemma append_assoc (s t u : string) : (s +:+ t) +:+ u = s +:+ (t +:+ u).
Proof.
  induction s as [|ch s IH]; [done|]. by rewrite !append_cons, IH.
Qed.

(** X6. A record id contains no space and no upper-case letter. *)
Theorem record_id_alphabet (r : record) :
  Forall (λ ch, ch ≠ " "%char ∧ PyStr.is_upper ch = false)
         (list_ascii_of_string (generate_record_id r)).
Proof.
  unfold generate_record_id.
  induction (name r +:+ "_" +:+ booking_date r) as [|ch s IH]; [constructor|].
  cbn [PyStr.lower PyStr.replace_char list_ascii_of_string].
  constructor; [|done].
  destruct (Ascii.eqb (PyStr.lower_char ch) " ") eqn:Hc.
  - by split.
  - split; [by apply Ascii.eqb_neq | apply lower_char_not_upper].
Qed.

(** X7. Ids collide across the fields and across spaces and underscores:
    writing an underscore for a space in the name or in the booking date
    does not change the id, and neither does moving the text after an
    underscore of the name to the front of the booking date. *)
Theorem record_id_collisions (r1 r2 : record) :
  (name r2 = PyStr.replace_char " " "_" (name r1) →
   booking_date r2 = PyStr.replace_char " " "_" (booking_date r1) →
   generate_record_id r2 = generate_record_id r1)
  ∧ (∀ a b, name r1 = a +:+ "_" +:+ b → name r2 = a →
            booking_date r2 = b +:+ "_" +:+ booking_date r1 →
            generate_record_id r2 = generate_record_id r1).
Proof.
  split.
  - intros Hn Hd. rewrite !generate_record_id_parts, Hn, Hd.
    by rewrite !lower_replace_space, !replace_space_idemp.
  - intros a b Hn1 Hn2 Hd. unfold generate_record_id.
    by rewrite Hn1, Hn2, Hd, !append_assoc.
Qed.

(** X7 at "Ann Lee_Ray" booked "2024" and "Ann Lee" booked "Ray_2024". *)
Lemma record_id_collisions_witness :
  generate_record_id (sample_record "Ann Lee" "Ray_2024" "")
  = generate_record_id (sample_record "Ann Lee_Ray" "2024" "Theft").
Proof.
  apply (proj2 (record_id_collisions (sample_record "Ann Lee_Ray" "2024" "Theft")
                  (sample_record "Ann Lee" "Ray_2024" "")) "Ann Lee" "Ray");
    reflexivity.
Defined.

(** ** More on [scrape_county] *)

Lemma dict_get_None (d : list (string * string)) (key : string) :
  dict_get d key = None ↔ key ∉ d.*1.
Proof.
  induction d as [|[k v] d IH]; cbn [dict_get fmap list_fmap fst].
  - split; [intros _ []%elem_of_nil | done].
  - rewrite not_elem_of_cons. destruct (String.eqb k key) eqn:Hk.
    + apply String.eqb_eq in Hk. split; [done | by intros [? _]].
    + apply String.eqb_neq in Hk. rewrite IH. split; [by split | by intros [_ ?]].
Qed.

(** X8. A county name whose lower-case form is not a key of the registry
    is rejected: [scrape_county] returns no record, logs one error,
    requests no page and neither reads nor writes the cache directory. *)
Theorem unsupported_county_rejected
    (re_search : string → string → re_flags → option string) (w : world)
    (cn : string) (max_pages : nat) (c : criteria) (skip : bool)
    (dir : gmap string cache_file) :
  PyStr.lower cn ∉ counties.*1 →
  scrape_county re_search w cn max_pages c skip dir
  = ([], dir, [Log ERROR (MsgNotSupported cn)]).
Proof. intros Hcn. by apply scrape_county_unsupported, dict_get_None. Qed.

(** X8 at the county name "Shelby". *)
Lemma unsupported_county_rejected_witness :
  scrape_county re_search_unlabelled two_page_world "Shelby" 5 no_criteria
    true ∅
  = ([], ∅, [Log ERROR (MsgNotSupported "Shelby")]).
Proof.
  apply (unsupported_county_rejected re_search_unlabelled two_page_world
           "Shelby" 5 no_criteria true ∅).
  apply dict_get_None. reflexivity.
Defined.

(** X9. With [skip_duplicates=False] the cache directory plays no part:
    the run leaves it as it was, never calls [save_cache], returns the
    same records whatever the directory holds, and (for a supported
    county) returns every parsed record that passes the date and keyword
    checks. *)
Theorem without_skip_duplicates
    (re_search : string → string → re_flags → option string) (w : world)
    (cn : string) (max_pages : nat) (c : criteria)
    (dir : gmap string cache_file) :
  dir_of (scrape_county re_search w cn max_pages c false dir) = dir
  ∧ saves_of (trace_of (scrape_county re_search w cn max_pages c false dir)) = []
  ∧ (∀ dir', value_of (scrape_county re_search w cn max_pages c false dir')
             = value_of (scrape_county re_search w cn max_pages c false dir))
  ∧ (∀ slug, dict_get counties (PyStr.lower cn) = Some slug →
       value_of (scrape_county re_search w cn max_pages c false dir)
       = filter (λ r, date_check c r = true ∧ charges_check c r = true)
           (concat (parsed_pages re_search w max_pages 1 (county_url slug) cn))).
Proof.
  destruct (dict_get counties (PyStr.lower cn)) as [slug|] eqn:Hslug.
  - destruct (scrape_county_run re_search w cn slug max_pages c false dir Hslug)
      as (_ & Hd & Hs & _).
    cbn [andb] in Hd, Hs. split_and!; [done | done | |].
    + intros dir'. by rewrite !(scrape_county_filter _ _ _ _ _ _ _ _ Hslug).
    + intros slug' [= <-]. rewrite (scrape_county_filter _ _ _ _ _ _ _ _ Hslug).
      apply list_filter_iff. intros r. rewrite record_passes_true.
      cbn [start_ids]. unfold in_cache.
      rewrite bool_decide_eq_false. split; [tauto|].
      intros [? ?]. split_and!; [apply not_elem_of_empty | done..].
  - rewrite (scrape_county_unsupported _ _ _ _ _ _ _ Hslug).
    split_and!; [done | done | | done].
    intros dir'. by rewrite (scrape_county_unsupported _ _ _ _ _ _ _ Hslug).
Qed.

(** X9 at Nelson county of the two-page site. *)
Lemma without_skip_duplicates_witness :
  value_of (scrape_county re_search_unlabelled two_page_world "nelson" 5
              no_criteria false ∅)
  = filter (λ r, date_check no_criteria r = true
                 ∧ charges_check no_criteria r = true)
      (concat (parsed_pages re_search_unlabelled two_page_world 5 1
                 (county_url "nelson-county") "nelson")).
Proof.
  apply (without_skip_duplicates re_search_unlabelled two_page_world "nelson"
           5 no_criteria ∅).
  reflexivity.
Defined.



(** ** Which pages are requested *)

Section Paginator.

Variable re_search : string → string → re_flags → option string.

Lemma parse_entries_length (entries : list entry) (cn cn' : string)
    (now now' : nat → string) (i j : nat) :
  length (parse_entries re_search entries cn now i)
  = length (parse_entries re_search entries cn' now' j).
Proof.
  revert i j. induction entries as [|[|b] entries IH]; intros i j;
    cbn [parse_entries]; [done | apply IH |].
  unfold _extract_record_data. cbn [name build_record].
  destruct (PyStr.truthy (entry_name b)); [|apply IH].
  cbn [length]. f_equal. apply IH.
Qed.

Lemma parse_page_nil (soup : document) (cn cn' : string)
    (now now' : nat → string) :
  _parse_page re_search soup cn now = []
  ↔ _parse_page re_search soup cn' now' = [].
Proof.
  rewrite <- !length_zero_iff_nil. unfold _parse_page.
  by rewrite (parse_entries_length _ cn cn' now now' 0 0).
Qed.

(** The requests of the page loop depend on the site, the page limit and
    the URL only. *)
Lemma page_loop_requests_ext (w w' : world) (n page : nat) (url : string)
    (cn cn' : string) (cached cached' : gset string) (c c' : criteria)
    (acc acc' : accum) (dir dir' : gmap string cache_file) :
  (∀ u, fetch w u = fetch w' u) →
  requests_of (trace_of (page_loop re_search w n page url cn cached c acc dir))
  = requests_of
      (trace_of (page_loop re_search w' n page url cn' cached' c' acc' dir')).
Proof.
  intros Hfetch. revert page acc acc'.
  induction n as [|n IH]; intros page acc acc'; [done|].
  rewrite !page_loop_S, <- Hfetch.
  destruct (fetch w (page_url url page)) as [| |soup]; [done| |].
  - cbn zeta. rewrite !trace_of_run, !(requests_of_app [_; _; _]).
    f_equal. apply IH.
  - pose proof (parse_page_nil soup cn cn' (clock w (page_url url page))
                  (clock w' (page_url url page))) as Hnil.
    destruct (_parse_page re_search soup cn (clock w (page_url url page)))
      as [|r rs],
      (_parse_page re_search soup cn' (clock w' (page_url url page)))
      as [|r' rs']; [done | | | ].
    + discriminate (proj1 Hnil eq_refl).
    + discriminate (proj2 Hnil eq_refl).
    + cbn zeta. rewrite !trace_of_run, !(requests_of_app [_; _; _; _]).
      f_equal. apply IH.
Qed.

(** X11. Which pages [scrape_county] requests depends on the site and
    the page limit only: not on the cache directory, the criteria,
    [skip_duplicates], the clock, the outcome of cache writes, or the
    spelling of the county name (as long as the lower-case forms
    agree). *)
Theorem requests_depend_on_site_only (w w' : world) (cn cn' : string)
    (max_pages : nat) (c c' : criteria) (skip skip' : bool)
    (dir dir' : gmap string cache_file) :
  (∀ u, fetch w u = fetch w' u) →
  PyStr.lower cn = PyStr.lower cn' →
  requests_of (trace_of (scrape_county re_search w cn max_pages c skip dir))
  = requests_of
      (trace_of (scrape_county re_search w' cn' max_pages c' skip' dir')).
Proof.
  intros Hfetch Hcn.
  destruct (dict_get counties (PyStr.lower cn)) as [slug|] eqn:Hslug.
  - assert (Hslug' : dict_get counties (PyStr.lower cn') = Some slug)
      by (by rewrite <- Hcn).
    destruct (scrape_county_run re_search w cn slug max_pages c skip dir Hslug)
      as (_ & _ & _ & -> & _).
    destruct (scrape_county_run re_search w' cn' slug max_pages c' skip' dir'
                Hslug') as (_ & _ & _ & -> & _).
    by apply page_loop_requests_ext.
  - assert (Hslug' : dict_get counties (PyStr.lower cn') = None)
      by (by rewrite <- Hcn).
    by rewrite (scrape_county_unsupported _ _ _ _ _ _ _ Hslug),
      (scrape_county_unsupported _ _ _ _ _ _ _ Hslug').
Qed.

Variable w : world.

(** The requests of the page loop: the pages [page], [page + 1], ... up
    to the first one after which the loop does not go on, or up to the
    page limit. *)
Lemma page_loop_requests (n page : nat) (url cn : string)
    (cached : gset string) (c : criteria) (acc : accum)
    (dir : gmap string cache_file) :
  ∃ m, (m ≤ n)%nat
       ∧ requests_of
           (trace_of (page_loop re_search w n page url cn cached c acc dir))
         = page_url url <$> seq page m
       ∧ (∀ p, (page ≤ p)%nat → (S p < page + m)%nat →
               page_goes_on re_search w url cn p = true)
       ∧ ((m < n)%nat →
          (0 < m)%nat
          ∧ page_goes_on re_search w url cn (page + m - 1) = false)
       ∧ ((0 < n)%nat → (0 < m)%nat).
Proof.
  revert page acc. induction n as [|n IH]; intros page acc.
  - exists 0%nat. split_and!; [done | done | intros; lia | lia | lia].
  - rewrite page_loop_S.
    assert (Hrec : page_goes_on re_search w url cn page = true →
      ∀ acc', ∃ m, (m ≤ S n)%nat
        ∧ page_url url page
          :: requests_of
               (trace_of (page_loop re_search w n (S page) url cn cached c
                            acc' dir))
          = page_url url <$> seq page m
        ∧ (∀ p, (page ≤ p)%nat → (S p < page + m)%nat →
                page_goes_on re_search w url cn p = true)
        ∧ ((m < S n)%nat →
           (0 < m)%nat
           ∧ page_goes_on re_search w url cn (page + m - 1) = false)
        ∧ ((0 < S n)%nat → (0 < m)%nat)).
    { intros Hgo acc'.
      destruct (IH (S page) acc') as (m & Hm & Hq & Hon & Hoff & Hpos).
      exists (S m). split_and!; [lia | by rewrite Hq | | | lia].
      - intros p Hp1 Hp2. destruct (decide (p = page)) as [->|Hne]; [done|].
        apply Hon; lia.
      - intros Hlt. destruct (Hoff ltac:(lia)) as [Hm0 Hlast].
        split; [lia|].
        by replace (page + S m - 1)%nat with (S page + m - 1)%nat by lia. }
    assert (Hstop : page_goes_on re_search w url cn page = false →
      ∃ m, (m ≤ S n)%nat
        ∧ [page_url url page] = page_url url <$> seq page m
        ∧ (∀ p, (page ≤ p)%nat → (S p < page + m)%nat →
                page_goes_on re_search w url cn p = true)
        ∧ ((m < S n)%nat →
           (0 < m)%nat
           ∧ page_goes_on re_search w url cn (page + m - 1) = false)
        ∧ ((0 < S n)%nat → (0 < m)%nat)).
    { intros Hgo. exists 1%nat.
      split_and!; [lia | done | intros; lia | | lia].
      intros _. split; [lia|].
      by replace (page + 1 - 1)%nat with page by lia. }
    unfold page_goes_on at 1 in Hrec. unfold page_goes_on at 1 in Hstop.
    destruct (fetch w (page_url url page)) as [| |soup].
    + rewrite trace_of_run. by apply Hstop.
    + cbn zeta. rewrite trace_of_run, (requests_of_app [_; _; _]).
      by apply Hrec.
    + destruct (_parse_page re_search soup cn (clock w (page_url url page)))
        as [|r rs].
      * rewrite trace_of_run. by apply Hstop.
      * cbn zeta. rewrite trace_of_run, (requests_of_app [_; _; _; _]).
        by apply Hrec.
Qed.

(** X12. Pagination. For a supported county, [scrape_county] requests the
    pages 1, 2, ..., [m] in this order, each once, for some [m] within
    the page limit: every page before the last one let the loop go on
    (it had records, or it could not be parsed); if [m] is below the
    limit, page [m] ended the loop (its fetch failed or it had no
    record); and with a limit of at least one, page 1 is requested. *)
Theorem pagination (cn slug : string) (max_pages : nat) (c : criteria)
    (skip : bool) (dir : gmap string cache_file) :
  dict_get counties (PyStr.lower cn) = Some slug →
  ∃ m, (m ≤ max_pages)%nat
       ∧ requests_of
           (trace_of (scrape_county re_search w cn max_pages c skip dir))
         = page_url (county_url slug) <$> seq 1 m
       ∧ (∀ p, (1 ≤ p < m)%nat →
               page_goes_on re_search w (county_url slug) cn p = true)
       ∧ ((m < max_pages)%nat →
          (0 < m)%nat
          ∧ page_goes_on re_search w (county_url slug) cn m = false)
       ∧ ((0 < max_pages)%nat → (0 < m)%nat).
Proof.
  intros Hslug.
  destruct (scrape_county_run re_search w cn slug max_pages c skip dir Hslug)
    as (_ & _ & _ & -> & _).
  destruct (page_loop_requests max_pages 1 (county_url slug) cn
              (start_ids dir cn skip) c (mk_accum [] ∅) dir)
    as (m & Hm & Hq & Hon & Hoff & Hpos).
  exists m. split_and!; [done | done | | | done].
  - intros p Hp. apply Hon; lia.
  - intros Hlt. destruct (Hoff Hlt) as [Hm0 Hlast]. split; [done|].
    by replace (1 + m - 1)%nat with m in Hlast by lia.
Qed.

(** X13. The page loop sleeps two seconds once for every page that had
    records, and at no other time: not after a page it could not parse,
    and not after the page that ended the loop. *)
Theorem sleeps_after_pages_with_records (n page : nat) (url cn : string)
    (cached : gset string) (c : criteria) (acc : accum)
    (dir : gmap string cache_file) :
  sleeps_of (trace_of (page_loop re_search w n page url cn cached c acc dir))
  = replicate (length (parsed_pages re_search w n page url cn)) 2%nat.
Proof.
  revert page acc. induction n as [|n IH]; intros page acc; [done|].
  rewrite page_loop_S. cbn [parsed_pages].
  destruct (fetch w (page_url url page)) as [| |soup]; [done| |].
  - cbn zeta. rewrite trace_of_run. unfold sleeps_of.
    rewrite omap_app. apply IH.
  - destruct (_parse_page re_search soup cn (clock w (page_url url page)))
      as [|r rs]; [done|].
    cbn zeta. rewrite trace_of_run. unfold sleeps_of.
    rewrite omap_app. cbn [omap list_omap app length replicate].
    f_equal. apply IH.
Qed.

End Paginator.

(** X11 at the spellings "nelson" and "Nelson", with and without a
    working cache file. *)
Lemma requests_depend_on_site_only_witness :
  requests_of (trace_of (scrape_county re_search_unlabelled two_page_world
                           "nelson" 5 no_criteria true ∅))
  = requests_of (trace_of (scrape_county re_search_unlabelled
                             failing_write_world "Nelson" 5
                             (mk_criteria None None (Some ["theft"])) false ∅)).
Proof.
  apply (requests_depend_on_site_only re_search_unlabelled two_page_world
           failing_write_world "nelson" "Nelson").
  - reflexivity.
  - reflexivity.
Defined.

(** X12 at the two-page site. *)
Lemma pagination_witness :
  ∃ m, (m ≤ 5)%nat
       ∧ requests_of
           (trace_of (scrape_county re_search_unlabelled two_page_world
                        "nelson" 5 no_criteria true ∅))
         = page_url (county_url "nelson-county") <$> seq 1 m
       ∧ (∀ p, (1 ≤ p < m)%nat →
               page_goes_on re_search_unlabelled two_page_world
                 (county_url "nelson-county") "nelson" p = true)
       ∧ ((m < 5)%nat →
          (0 < m)%nat
          ∧ page_goes_on re_search_unlabelled two_page_world
              (county_url "nelson-county") "nelson" m = false)
       ∧ ((0 < 5)%nat → (0 < m)%nat).
Proof.
  apply (pagination re_search_unlabelled two_page_world "nelson"
           "nelson-county" 5 no_criteria true ∅).
  reflexivity.
Defined.

(** ** What a run does not depend on *)

Section Independence.

Variable re_search : string → string → re_flags → option string.

Lemma parse_entries_ext (entries : list entry) (cn : string)
    (now now' : nat → string) (i : nat) :
  (∀ j, now j = now' j) →
  parse_entries re_search entries cn now i
  = parse_entries re_search entries cn now' i.
Proof.
  intros Hnow. revert i. induction entries as [|[|b] entries IH]; intros i;
    cbn [parse_entries]; [done | apply IH |].
  by rewrite Hnow, IH.
Qed.

Lemma parsed_pages_ext (w w' : world) (n page : nat) (url cn : string) :
  (∀ u, fetch w u = fetch w' u) →
  (∀ u i, clock w u i = clock w' u i) →
  parsed_pages re_search w n page url cn
  = parsed_pages re_search w' n page url cn.
Proof.
  intros Hfetch Hclock. revert page. induction n as [|n IH]; intros page;
    [done|].
  cbn [parsed_pages]. rewrite <- Hfetch.
  destruct (fetch w (page_url url page)) as [| |soup]; [done | apply IH |].
  unfold _parse_page.
  rewrite (parse_entries_ext _ cn (clock w (page_url url page))
             (clock w' (page_url url page)) 0 (Hclock _)).
  by rewrite IH.
Qed.

(** X14. Whether the cache file can be written has no effect on what a
    run returns: two worlds with the same pages and clock readings give
    the same records. *)
Theorem returned_records_ignore_cache_write (w w' : world) (cn : string)
    (max_pages : nat) (c : criteria) (skip : bool)
    (dir : gmap string cache_file) :
  (∀ u, fetch w u = fetch w' u) →
  (∀ u i, clock w u i = clock w' u i) →
  value_of (scrape_county re_search w cn max_pages c skip dir)
  = value_of (scrape_county re_search w' cn max_pages c skip dir).
Proof.
  intros Hfetch Hclock.
  destruct (dict_get counties (PyStr.lower cn)) as [slug|] eqn:Hslug.
  - rewrite !(scrape_county_filter _ _ _ _ _ _ _ _ Hslug).
    by rewrite (parsed_pages_ext w w' _ _ _ _ Hfetch Hclock).
  - by rewrite !(scrape_county_unsupported _ _ _ _ _ _ _ Hslug).
Qed.


End Independence.

(** X14 at the two-page site, with and without a working cache file. *)
Lemma returned_records_ignore_cache_write_witness :
  value_of (scrape_county re_search_unlabelled two_page_world "nelson" 5
              no_criteria true ∅)
  = value_of (scrape_county re_search_unlabelled failing_write_world "nelson"
                5 no_criteria true ∅).
Proof.
  apply (returned_records_ignore_cache_write re_search_unlabelled
           two_page_world failing_write_world).
  - reflexivity.
  - reflexivity.
Defined.


(** ** More on the parser *)

Lemma omap_length_le {A B} (f : A → option B) (l : list A) :
  (length (omap f l) ≤ length l)%nat.
Proof.
  induction l as [|x l IH]; [done|]. cbn [omap list_omap].
  destruct (f x); cbn [length]; lia.
Qed.

Section ParserMore.

Variable re_search : string → string → re_flags → option string.

Lemma parse_entries_names (entries : list entry) (cn : string)
    (now : nat → string) (i : nat) :
  name <$> parse_entries re_search entries cn now i = named_of entries.
Proof.
  revert i. induction entries as [|[|b] entries IH]; intros i;
    cbn [parse_entries named_of omap list_omap]; [done | apply IH |].
  unfold _extract_record_data. cbn [name build_record].
  destruct (PyStr.truthy (entry_name b)); [|apply IH].
  cbn [fmap list_fmap name build_record]. f_equal. apply IH.
Qed.

(** X16. The names of the records [_parse_page] returns are the names of
    the page's entries that have one, in page order: an entry without a
    name and an entry whose extraction raises are passed over, the
    entries after them are still read.  The [post] blocks are read only
    when no entry is classified: otherwise they have no effect. *)
Theorem parse_page_names (soup : document) (cn : string)
    (now : nat → string) :
  name <$> _parse_page re_search soup cn now
  = named_of (select_entries soup)
  ∧ (length (_parse_page re_search soup cn now)
     ≤ length (select_entries soup))%nat
  ∧ (classified soup ≠ [] →
     ∀ posts',
       _parse_page re_search (mk_document (classified soup) posts') cn now
       = _parse_page re_search soup cn now).
Proof.
  split_and!.
  - apply parse_entries_names.
  - unfold _parse_page. rewrite <- (length_fmap name), parse_entries_names.
    unfold named_of. apply omap_length_le.
  - intros Hne posts'. unfold _parse_page, select_entries.
    cbn [classified posts]. by destruct (classified soup).
Qed.

End ParserMore.

(** X16 at a page with classified entries and a [post] block. *)
Lemma parse_page_names_witness :
  _parse_page re_search_unlabelled
    (mk_document (classified nelson_page_1) [named_entry "Ann Lee"])
    "nelson" (sample_clock nelson_url)
  = _parse_page re_search_unlabelled nelson_page_1 "nelson"
      (sample_clock nelson_url).
Proof.
  apply (parse_page_names re_search_unlabelled nelson_page_1 "nelson"
           (sample_clock nelson_url)).
  discriminate.
Defined.

(** ** [_extract_pattern] *)

Lemma lstrip_starts_clean (s : string) : starts_clean (PyStr.lstrip s).
Proof.
  induction s as [|ch s IH]; [done|]. cbn [PyStr.lstrip].
  by destruct (PyStr.is_space ch) eqn:Hc.
Qed.

Lemma lstrip_clean (s : string) : starts_clean s → PyStr.lstrip s = s.
Proof. destruct s as [|ch s]; [done|]. cbn. by intros ->. Qed.

Lemma rstrip_cons (ch : ascii) (s : string) :
  PyStr.rstrip (String ch s)
  = match PyStr.rstrip s with
    | EmptyString =>
        if PyStr.is_space ch then EmptyString else String ch EmptyString
    | r => String ch r
    end.
Proof. done. Qed.

Lemma rstrip_starts_clean (s : string) :
  starts_clean s → starts_clean (PyStr.rstrip s).
Proof.
  destruct s as [|ch s]; [done|]. rewrite rstrip_cons. cbn [starts_clean].
  intros Hc. destruct (PyStr.rstrip s); by rewrite ?Hc.
Qed.

Lemma rstrip_idemp (s : string) :
  PyStr.rstrip (PyStr.rstrip s) = PyStr.rstrip s.
Proof.
  induction s as [|ch s IH]; [done|]. rewrite rstrip_cons.
  destruct (PyStr.rstrip s) as [|d r] eqn:Hr.
  - destruct (PyStr.is_space ch) eqn:Hc; [done|]. cbn. by rewrite Hc.
  - by rewrite rstrip_cons, IH.
Qed.

Lemma strip_idemp (s : string) : PyStr.strip (PyStr.strip s) = PyStr.strip s.
Proof.
  unfold PyStr.strip.
  rewrite (lstrip_clean (PyStr.rstrip (PyStr.lstrip s))).
  - apply rstrip_idemp.
  - apply rstrip_starts_clean, lstrip_starts_clean.
Qed.

Lemma append_nil_r (s : string) : s +:+ "" = s.
Proof. induction s as [|ch s IH]; [done|]. by rewrite append_cons, IH. Qed.

Lemma split_go_word (w : string) (cur : list ascii) (s : string) :
  Forall (λ ch, PyStr.is_space ch = false) (list_ascii_of_string w) →
  PyStr.split_go cur (w +:+ s)
  = PyStr.split_go (rev (list_ascii_of_string w) ++ cur) s.
Proof.
  revert cur. induction w as [|ch w IH]; intros cur Hw; [done|].
  cbn [list_ascii_of_string] in Hw. apply Forall_cons in Hw as [Hc Hw].
  rewrite append_cons. cbn [PyStr.split_go list_ascii_of_string rev].
  rewrite Hc, IH by done. by rewrite <- app_assoc.
Qed.

Lemma split_go_words (cur : list ascii) (s : string) :
  Forall (λ ch, PyStr.is_space ch = false) cur →
  Forall is_word (PyStr.split_go cur s).
Proof.
  revert cur. induction s as [|ch s IH]; intros cur Hcur.
  - cbn [PyStr.split_go]. destruct cur as [|c0 cur]; [constructor|].
    constructor; [|constructor]. split.
    + intros Hnil. apply (f_equal list_ascii_of_string) in Hnil.
      rewrite list_ascii_of_string_of_list_ascii in Hnil.
      cbn in Hnil. by destruct (rev cur).
    + rewrite list_ascii_of_string_of_list_ascii.
      by apply Forall_rev.
  - cbn [PyStr.split_go]. destruct (PyStr.is_space ch) eqn:Hc.
    + destruct cur as [|c0 cur]; [by apply IH|].
      constructor; [|by apply IH]. split.
      * intros Hnil. apply (f_equal list_ascii_of_string) in Hnil.
        rewrite list_ascii_of_string_of_list_ascii in Hnil.
        cbn in Hnil. by destruct (rev cur).
      * rewrite list_ascii_of_string_of_list_ascii. by apply Forall_rev.
    + apply IH. by constructor.
Qed.

Lemma split_join_words (ws : list string) :
  Forall is_word ws → PyStr.split (PyStr.join " " ws) = ws.
Proof.
  unfold PyStr.split. induction 1 as [|w ws [Hne Hw] Hws IH]; [done|].
  assert (Hflush : ∀ rest,
            match rev (list_ascii_of_string w) ++ [] with
            | [] => rest
            | _ => string_of_list_ascii
                     (rev (rev (list_ascii_of_string w) ++ [])) :: rest
            end = w :: rest).
  { intros rest. rewrite app_nil_r.
    destruct (rev (list_ascii_of_string w)) as [|c0 l] eqn:Hrev.
    - apply (f_equal (@rev _)) in Hrev. rewrite rev_involutive in Hrev.
      apply (f_equal string_of_list_ascii) in Hrev.
      rewrite string_of_list_ascii_of_string in Hrev. by destruct Hne.
    - by rewrite <- Hrev, rev_involutive, string_of_list_ascii_of_string. }
  destruct ws as [|w' ws].
  - cbn [PyStr.join]. rewrite <- (append_nil_r w) at 1.
    rewrite split_go_word by done. cbn [PyStr.split_go]. apply Hflush.
  - cbn [PyStr.join] in *. rewrite split_go_word by done.
    rewrite append_cons, append_nil_l. cbn [PyStr.split_go].
    replace (PyStr.is_space " ") with true by done.
    rewrite IH. apply Hflush.
Qed.

(** X17. Whatever the regular-expression engine returns,
    [_extract_pattern] gives the empty string when nothing matches; with
    [multiword] off its result carries no white space at either end
    (stripping it again changes nothing); with [multiword] on its result
    is white-space normalised: the words of the match, separated by
    single spaces. *)
Theorem extract_pattern_normal_form
    (re_search : string → string → re_flags → option string)
    (text pattern : string) (case_sensitive : bool) :
  (re_search pattern text (mk_flags (negb case_sensitive) false) = None →
   ∀ multiword,
     _extract_pattern re_search text pattern case_sensitive multiword = "")
  ∧ PyStr.strip (_extract_pattern re_search text pattern case_sensitive false)
    = _extract_pattern re_search text pattern case_sensitive false
  ∧ normalize_ws (_extract_pattern re_search text pattern case_sensitive true)
    = _extract_pattern re_search text pattern case_sensitive true
  ∧ Forall is_word
      (PyStr.split (_extract_pattern re_search text pattern case_sensitive true)).
Proof.
  unfold _extract_pattern, normalize_ws.
  destruct (re_search pattern text (mk_flags (negb case_sensitive) false))
    as [g|].
  - split_and!; [done | apply strip_idemp | |].
    + by rewrite split_join_words by (by apply split_go_words).
    + rewrite split_join_words by (by apply split_go_words).
      by apply split_go_words.
  - split_and!; [done | done | done | constructor].
Qed.

(** X17 for a text in which the pattern does not match. *)
Lemma extract_pattern_normal_form_witness :
  _extract_pattern re_search_unlabelled "released on bond" "arrested by\s+([A-Z\s]+)"
    false true = "".
Proof.
  apply (proj1 (extract_pattern_normal_form re_search_unlabelled
                  "released on bond" "arrested by\s+([A-Z\s]+)" false)).
  reflexivity.
Defined.

(** ** More on dates *)

Lemma digit_val_le (ch : ascii) : PyDate.is_digit ch = true → (PyDate.digit_val ch ≤ 9)%nat.
Proof.
  unfold PyDate.is_digit, PyDate.digit_val. cbn zeta.
  rewrite andb_true_iff, !Nat.leb_le. lia.
Qed.

Lemma in_range_bounds (lo hi : nat) (ch : ascii) :
  PyDate.in_range lo hi ch = true →
  (lo ≤ PyDate.digit_val ch ≤ hi)%nat ∧ PyDate.is_digit ch = true.
Proof.
  unfold PyDate.in_range. rewrite !andb_true_iff, !Nat.leb_le. tauto.
Qed.

Lemma elem_of_two (p q : ascii → bool) (s : string) (v : nat) (rest : string) :
  (v, rest) ∈ PyDate.two p q s →
  ∃ a b, s = String a (String b rest) ∧ p a = true ∧ q b = true
         ∧ v = (10 * PyDate.digit_val a + PyDate.digit_val b)%nat.
Proof.
  unfold PyDate.two. destruct s as [|a [|b s]]; [by intros ?%elem_of_nil..|].
  destruct (p a) eqn:Hp, (q b) eqn:Hq; cbn [andb];
    [|by intros ?%elem_of_nil..].
  intros [= -> ->]%list_elem_of_singleton. by exists a, b.
Qed.

Lemma elem_of_one (p : ascii → bool) (s : string) (v : nat) (rest : string) :
  (v, rest) ∈ PyDate.one p s →
  ∃ a, s = String a rest ∧ p a = true ∧ v = PyDate.digit_val a.
Proof.
  unfold PyDate.one. destruct s as [|a s]; [by intros ?%elem_of_nil|].
  destruct (p a) eqn:Hp; [|by intros ?%elem_of_nil].
  intros [= -> ->]%list_elem_of_singleton. by exists a.
Qed.

Lemma match_Y_bound (s : string) (v : nat) (rest : string) :
  (v, rest) ∈ PyDate.match_Y s → (v < 10 * 1000)%nat.
Proof.
  unfold PyDate.match_Y.
  destruct s as [|a [|b [|c [|d s]]]]; [by intros ?%elem_of_nil..|].
  destruct (PyDate.is_digit a) eqn:Ha, (PyDate.is_digit b) eqn:Hb,
    (PyDate.is_digit c) eqn:Hc, (PyDate.is_digit d) eqn:Hd; cbn [andb];
    [|by intros ?%elem_of_nil..].
  intros [= -> ->]%list_elem_of_singleton.
  apply digit_val_le in Ha, Hb, Hc, Hd. lia.
Qed.

Lemma match_m_bound (s : string) (v : nat) (rest : string) :
  (v, rest) ∈ PyDate.match_m s → (1 ≤ v ≤ 12)%nat.
Proof.
  unfold PyDate.match_m. rewrite !elem_of_app.
  intros [H|[H|H]].
  - apply elem_of_two in H as (a & b & _ & [Ha _]%in_range_bounds
                               & [Hb _]%in_range_bounds & ->). lia.
  - apply elem_of_two in H as (a & b & _ & [Ha _]%in_range_bounds
                               & [Hb _]%in_range_bounds & ->). lia.
  - apply elem_of_one in H as (a & _ & [Ha _]%in_range_bounds & ->). lia.
Qed.

Lemma match_d_bound (s : string) (v : nat) (rest : string) :
  (v, rest) ∈ PyDate.match_d s → (1 ≤ v ≤ 31)%nat.
Proof.
  unfold PyDate.match_d. rewrite !elem_of_app.
  intros [H|[H|[H|[H|H]]]].
  - apply elem_of_two in H as (a & b & _ & [Ha _]%in_range_bounds
                               & [Hb _]%in_range_bounds & ->). lia.
  - apply elem_of_two in H as (a & b & _ & [Ha _]%in_range_bounds
                               & Hb%digit_val_le & ->). lia.
  - apply elem_of_two in H as (a & b & _ & [Ha _]%in_range_bounds
                               & [Hb _]%in_range_bounds & ->). lia.
  - apply elem_of_one in H as (a & _ & [Ha _]%in_range_bounds & ->). lia.
  - destruct s as [|ch s]; [by apply elem_of_nil in H|].
    destruct (Ascii.eqb ch " "); [|by apply elem_of_nil in H].
    apply elem_of_one in H as (a & _ & [Ha _]%in_range_bounds & ->). lia.
Qed.

Lemma match_fmt_in_range (fmt : list PyDate.directive) (acc : PyDate.ymd)
    (s : string) (res : PyDate.ymd) (rest : string) :
  fields_in_range acc → (res, rest) ∈ PyDate.match_fmt fmt acc s →
  fields_in_range res.
Proof.
  revert acc s. induction fmt as [|[| | |ch] fmt IH]; intros acc s Hacc;
    cbn [PyDate.match_fmt].
  - by intros [= -> ->]%list_elem_of_singleton.
  - intros ([v rest'] & Hin & Hv)%list_elem_of_bind.
    apply match_Y_bound in Hv. eapply IH; [|exact Hin].
    unfold fields_in_range in *. cbn. lia.
  - intros ([v rest'] & Hin & Hv)%list_elem_of_bind.
    apply match_m_bound in Hv. eapply IH; [|exact Hin].
    unfold fields_in_range in *. cbn. lia.
  - intros ([v rest'] & Hin & Hv)%list_elem_of_bind.
    apply match_d_bound in Hv. eapply IH; [|exact Hin].
    unfold fields_in_range in *. cbn. lia.
  - destruct s as [|ch' s]; [by intros ?%elem_of_nil|].
    destruct (Ascii.eqb ch ch'); [by apply IH | by intros ?%elem_of_nil].
Qed.

Lemma strptime_valid (s : string) (fmt : list PyDate.directive)
    (d : datetime) :
  PyDate.strptime s fmt = Some d →
  (1 ≤ PyDate.year d < 10 * 1000)%nat
  ∧ (1 ≤ PyDate.month d ≤ 12)%nat
  ∧ (1 ≤ PyDate.day d ≤ PyDate.days_in_month (PyDate.year d) (PyDate.month d))%nat
  ∧ PyDate.tod d = 0%nat.
Proof.
  unfold PyDate.strptime.
  destruct (head (PyDate.match_fmt fmt (1900, 1, 1)%nat s))
    as [[[[y m] dd] [|? ?]]|] eqn:Hhead; [|done..].
  destruct ((1 <=? y)%nat && (dd <=? PyDate.days_in_month y m)%nat) eqn:Hok;
    [|done].
  intros [= <-]. cbn [PyDate.year PyDate.month PyDate.day PyDate.tod].
  apply andb_true_iff in Hok as [Hy%Nat.leb_le Hd%Nat.leb_le].
  apply head_Some_elem_of in Hhead.
  apply match_fmt_in_range in Hhead; [|unfold fields_in_range; cbn; lia].
  unfold fields_in_range in Hhead. cbn in Hhead. lia.
Qed.

(** X18. Every date [_parse_date] returns exists in the calendar: its
    year is between 1 and 9999, its month between 1 and 12, its day
    between 1 and the length of that month in that year (leap years
    counted), and its time is midnight. *)
Theorem parse_date_valid (date_str : string) (d : datetime) :
  _parse_date date_str = Some d →
  (1 ≤ PyDate.year d < 10 * 1000)%nat
  ∧ (1 ≤ PyDate.month d ≤ 12)%nat
  ∧ (1 ≤ PyDate.day d ≤ PyDate.days_in_month (PyDate.year d) (PyDate.month d))%nat
  ∧ PyDate.tod d = 0%nat.
Proof.
  intros (i & fmt & _ & Hfmt & _)%parse_date_Some.
  by apply (strptime_valid date_str fmt).
Qed.

(** X18 at "02/29/2024". *)
Lemma parse_date_valid_witness :
  (1 ≤ 2024 < 10 * 1000)%nat ∧ (1 ≤ 2 ≤ 12)%nat
  ∧ (1 ≤ 29 ≤ PyDate.days_in_month 2024 2)%nat ∧ 0%nat = 0%nat.
Proof.
  apply (parse_date_valid "02/29/2024" (PyDate.mk_datetime 2024 2 29 0)).
  reflexivity.
Defined.

Lemma elem_of_match_Y (s : string) (v : nat) (rest : string) :
  (v, rest) ∈ PyDate.match_Y s →
  ∃ c0 c1 c2 c3,
    s = String c0 (String c1 (String c2 (String c3 rest)))
    ∧ PyDate.is_digit c0 = true ∧ PyDate.is_digit c1 = true
    ∧ PyDate.is_digit c2 = true ∧ PyDate.is_digit c3 = true.
Proof.
  unfold PyDate.match_Y.
  destruct s as [|a [|b [|c [|d s]]]]; [by intros ?%elem_of_nil..|].
  destruct (PyDate.is_digit a) eqn:Ha, (PyDate.is_digit b) eqn:Hb,
    (PyDate.is_digit c) eqn:Hc, (PyDate.is_digit d) eqn:Hd; cbn [andb];
    [|by intros ?%elem_of_nil..].
  intros [= -> ->]%list_elem_of_singleton. by exists a, b, c, d.
Qed.

Lemma elem_of_match_m (s : string) (v : nat) (rest : string) :
  (v, rest) ∈ PyDate.match_m s →
  (∃ c0, s = String c0 rest ∧ PyDate.is_digit c0 = true)
  ∨ (∃ c0 c1, s = String c0 (String c1 rest)
              ∧ PyDate.is_digit c0 = true ∧ PyDate.is_digit c1 = true).
Proof.
  unfold PyDate.match_m. rewrite !elem_of_app.
  intros [H|[H|H]].
  - apply elem_of_two in H as (a & b & -> & [_ Ha]%in_range_bounds
                               & [_ Hb]%in_range_bounds & _).
    right. by exists a, b.
  - apply elem_of_two in H as (a & b & -> & [_ Ha]%in_range_bounds
                               & [_ Hb]%in_range_bounds & _).
    right. by exists a, b.
  - apply elem_of_one in H as (a & -> & [_ Ha]%in_range_bounds & _).
    left. by exists a.
Qed.

Lemma strptime_head (s : string) (fmt : list PyDate.directive) (d : datetime) :
  PyDate.strptime s fmt = Some d →
  ∃ res, res ∈ PyDate.match_fmt fmt (1900, 1, 1)%nat s.
Proof.
  unfold PyDate.strptime.
  destruct (head (PyDate.match_fmt fmt (1900, 1, 1)%nat s)) as [res|] eqn:Hh;
    [|done].
  intros _. exists res. by apply head_Some_elem_of.
Qed.

Lemma literal_next (sep : ascii) (fmt : list PyDate.directive)
    (acc : PyDate.ymd) (s : string) (res : PyDate.ymd * string) :
  res ∈ PyDate.match_fmt (PyDate.Lit sep :: fmt) acc s →
  ∃ s', s = String sep s'.
Proof.
  cbn [PyDate.match_fmt]. destruct s as [|ch s]; [by intros ?%elem_of_nil|].
  destruct (Ascii.eqb sep ch) eqn:Hc; [|by intros ?%elem_of_nil].
  apply Ascii.eqb_eq in Hc as ->. by exists s.
Qed.

(** A text a year-first format parses: four digits, then the separator. *)
Lemma year_first (sep : ascii) (fmt : list PyDate.directive) (s : string)
    (d : datetime) :
  PyDate.strptime s (PyDate.DY :: PyDate.Lit sep :: fmt) = Some d →
  ∃ c0 c1 c2 c3 s',
    s = String c0 (String c1 (String c2 (String c3 (String sep s'))))
    ∧ PyDate.is_digit c0 = true ∧ PyDate.is_digit c1 = true
    ∧ PyDate.is_digit c2 = true ∧ PyDate.is_digit c3 = true.
Proof.
  intros [res Hres]%strptime_head. cbn [PyDate.match_fmt] in Hres.
  apply list_elem_of_bind in Hres as ([v rest] & Hres & Hv).
  apply elem_of_match_Y in Hv as (c0 & c1 & c2 & c3 & -> & Hd).
  apply literal_next in Hres as [s' ->]. by exists c0, c1, c2, c3, s'.
Qed.

(** A text a month-first format parses: one or two digits, then the
    separator. *)
Lemma month_first (sep : ascii) (fmt : list PyDate.directive) (s : string)
    (d : datetime) :
  PyDate.strptime s (PyDate.Dm :: PyDate.Lit sep :: fmt) = Some d →
  (∃ c0 s', s = String c0 (String sep s') ∧ PyDate.is_digit c0 = true)
  ∨ (∃ c0 c1 s', s = String c0 (String c1 (String sep s'))
                 ∧ PyDate.is_digit c0 = true ∧ PyDate.is_digit c1 = true).
Proof.
  intros [res Hres]%strptime_head. cbn [PyDate.match_fmt] in Hres.
  apply list_elem_of_bind in Hres as ([v rest] & Hres & Hv).
  apply literal_next in Hres as [s' ->].
  apply elem_of_match_m in Hv as [(c0 & -> & H0)|(c0 & c1 & -> & H0 & H1)].
  - left. by exists c0, s'.
  - right. by exists c0, c1, s'.
Qed.

(** No text parses under two of the four date formats. *)
Lemma date_formats_exclusive (date_str : string) (i j : nat)
    (fi fj : list PyDate.directive) (di dj : datetime) :
  PyDate.formats !! i = Some fi → PyDate.formats !! j = Some fj →
  PyDate.strptime date_str fi = Some di →
  PyDate.strptime date_str fj = Some dj →
  i = j.
Proof.
  intros Hi Hj Hdi Hdj.
  assert (Hdash : PyDate.is_digit "-" = false) by done.
  assert (Hslash : PyDate.is_digit "/" = false) by done.
  destruct i as [|[|[|[|i]]]]; cbn in Hi; try done;
    destruct j as [|[|[|[|j]]]]; cbn in Hj; try done;
    injection Hi as <-; injection Hj as <-;
    first
      [ apply year_first in Hdi as (a0 & a1 & a2 & a3 & sa & Hsa & ?)
      | apply month_first in Hdi
          as [(a0 & sa & Hsa & ?)|(a0 & a1 & sa & Hsa & ?)] ];
    first
      [ apply year_first in Hdj as (b0 & b1 & b2 & b3 & sb & Hsb & ?)
      | apply month_first in Hdj
          as [(b0 & sb & Hsb & ?)|(b0 & b1 & sb & Hsb & ?)] ];
    rewrite Hsa in Hsb; injection Hsb; intros; subst;
    destruct_and?; congruence.
Qed.

(** X19. The order in which [_parse_date] tries its formats does not
    matter: no text parses under two of them, so whenever any of the four
    formats parses the text, that parse is the result. *)
Theorem parse_date_any_format (date_str : string) (i : nat)
    (fmt : list PyDate.directive) (d : datetime) :
  PyDate.formats !! i = Some fmt →
  PyDate.strptime date_str fmt = Some d →
  _parse_date date_str = Some d
  ∧ ∀ j fmt', PyDate.formats !! j = Some fmt' → j ≠ i →
              PyDate.strptime date_str fmt' = None.
Proof.
  intros Hi Hd.
  assert (Hothers : ∀ j fmt', PyDate.formats !! j = Some fmt' → j ≠ i →
                      PyDate.strptime date_str fmt' = None).
  { intros j fmt' Hj Hne.
    destruct (PyDate.strptime date_str fmt') as [d'|] eqn:Hd'; [|done].
    destruct Hne. by apply (date_formats_exclusive date_str j i fmt' fmt d' d). }
  split; [|done]. apply parse_date_Some. exists i, fmt.
  split_and!; [done | done |]. intros j fmt' Hlt Hj. apply (Hothers j); [done|lia].
Qed.

(** X19 at "03-01-2024" and the third format. *)
Lemma parse_date_any_format_witness :
  _parse_date "03-01-2024" = Some (PyDate.mk_datetime 2024 3 1 0).
Proof.
  apply (parse_date_any_format "03-01-2024" 2
           [PyDate.Dm; PyDate.Lit "-"; PyDate.Dd; PyDate.Lit "-"; PyDate.DY]
           (PyDate.mk_datetime 2024 3 1 0));
    reflexivity.
Defined.

(** ** Where the requests go, and failed cache writes *)

Lemma startswith_page_url (url : string) (page : nat) :
  PyStr.startswith url (page_url url page) = true.
Proof.
  apply startswith_spec. unfold page_url.
  destruct (page =? 1)%nat; [exists ""; by rewrite append_nil_r | by eexists].
Qed.

(** X20. Every URL [scrape_county] requests lies under the county's
    listing: it starts with the county's URL, which starts with the base
    URL of the site. *)
Theorem requests_stay_in_listing
    (re_search : string → string → re_flags → option string) (w : world)
    (cn slug : string) (max_pages : nat) (c : criteria) (skip : bool)
    (dir : gmap string cache_file) :
  dict_get counties (PyStr.lower cn) = Some slug →
  Forall (λ u, PyStr.startswith (county_url slug) u = true
               ∧ PyStr.startswith base_url u = true)
         (requests_of
            (trace_of (scrape_county re_search w cn max_pages c skip dir))).
Proof.
  intros Hslug.
  destruct (scrape_county_run re_search w cn slug max_pages c skip dir Hslug)
    as (_ & _ & _ & -> & _).
  destruct (page_loop_requests re_search w max_pages 1 (county_url slug) cn
              (start_ids dir cn skip) c (mk_accum [] ∅) dir)
    as (m & _ & -> & _).
  apply Forall_fmap, Forall_forall. intros p _. cbn [compose].
  pose proof (startswith_page_url (county_url slug) p) as Hp.
  split; [done|].
  apply startswith_spec in Hp as [suf ->]. apply startswith_spec.
  unfold county_url. exists ("/" +:+ slug +:+ "/" +:+ suf).
  by rewrite !append_assoc.
Qed.

(** X20 at Nelson county of the two-page site. *)
Lemma requests_stay_in_listing_witness :
  Forall (λ u, PyStr.startswith (county_url "nelson-county") u = true
               ∧ PyStr.startswith base_url u = true)
         (requests_of
            (trace_of (scrape_county re_search_unlabelled two_page_world
                         "nelson" 5 no_criteria true ∅))).
Proof.
  apply (requests_stay_in_listing re_search_unlabelled two_page_world
           "nelson" "nelson-county" 5 no_criteria true ∅).
  reflexivity.
Defined.

(** X21. When the cache write raises, [scrape_county] still returns its
    records and only the county's own file can change: the ids stored for
    the county afterwards are the ids stored before, or none at all when
    the file had been opened before the write failed. The ids of the
    records just kept are not stored. *)
Theorem failed_cache_write
    (re_search : string → string → re_flags → option string) (w : world)
    (cn : string) (max_pages : nat) (c : criteria) (skip damaged : bool)
    (dir : gmap string cache_file) :
  cache_write w cn = WriteRaises damaged →
  let run := scrape_county re_search w cn max_pages c skip dir in
  stored_ids (dir_of run) cn
  = (if damaged && skip && negb (bool_decide (value_of run = []))
     then ∅ else stored_ids dir cn)
  ∧ ∀ cn', cn' ≠ cn → dir_of run !! cn' = dir !! cn'.
Proof.
  intros Hw. cbn zeta. split.
  - destruct (dict_get counties (PyStr.lower cn)) as [slug|] eqn:Hslug.
    + destruct (scrape_county_run re_search w cn slug max_pages c skip dir
                  Hslug) as (-> & -> & _).
      rewrite Hw.
      destruct skip, (bool_decide (concat _ = [])), damaged; cbn [andb negb];
        try done.
      unfold stored_ids. by rewrite lookup_insert_eq.
    + rewrite (scrape_county_unsupported _ _ _ _ _ _ _ Hslug).
      rewrite dir_of_run, value_of_run.
      by rewrite bool_decide_eq_true_2, !andb_false_r by done.
  - intros cn' Hne. by apply scrape_county_other_files.
Qed.

(** X21 at the two-page site with a cache file that cannot be opened. *)
Lemma failed_cache_write_witness :
  stored_ids
    (dir_of (scrape_county re_search_unlabelled failing_write_world "nelson" 5
               no_criteria true {[ "nelson" := FileIds ["ann_lee_2023"] ]}))
    "nelson"
  = stored_ids {[ "nelson" := FileIds ["ann_lee_2023"] ]} "nelson".
Proof.
  apply (failed_cache_write re_search_unlabelled failing_write_world "nelson"
           5 no_criteria true false {[ "nelson" := FileIds ["ann_lee_2023"] ]}).
  reflexivity.
Defined.

(** ** CSV files of a run over all counties *)

Lemma csvs_of_app (t1 t2 : list event) :
  csvs_of (t1 ++ t2) = csvs_of t1 ++ csvs_of t2.
Proof. apply omap_app. Qed.

Lemma writes_no_csv_ret {A} (a : A) : writes_no_csv (mret a).
Proof. done. Qed.

Lemma writes_no_csv_bind {A B} (m : M A) (f : A → M B) :
  writes_no_csv m → (∀ a, writes_no_csv (f a)) → writes_no_csv (m ≫= f).
Proof.
  unfold writes_no_csv. intros Hm Hf dir. unfold mbind, M_bind.
  specialize (Hm dir). destruct (m dir) as [[a d] t].
  specialize (Hf a d). destruct (f a d) as [[b d'] t'].
  rewrite trace_of_run in Hm. rewrite trace_of_run in Hf.
  by rewrite trace_of_run, csvs_of_app, Hm, Hf.
Qed.

Lemma writes_no_csv_log (lvl : level) (msg : message) :
  writes_no_csv (log lvl msg).
Proof. done. Qed.

Section CsvFacts.

Variable re_search : string → string → re_flags → option string.
Variable w : world.

Lemma page_loop_no_csv (n page : nat) (url cn : string)
    (cached : gset string) (c : criteria) (acc : accum) :
  writes_no_csv (page_loop re_search w n page url cn cached c acc).
Proof.
  revert page acc. induction n as [|n IH]; intros page acc dir; [done|].
  rewrite page_loop_S.
  destruct (fetch w (page_url url page)) as [| |soup]; [done| |].
  - cbn zeta. rewrite trace_of_run, csvs_of_app. apply IH.
  - destruct (_parse_page re_search soup cn (clock w (page_url url page)));
      [done|].
    cbn zeta. rewrite trace_of_run, csvs_of_app. apply IH.
Qed.

Lemma scrape_county_no_csv (cn : string) (max_pages : nat) (c : criteria)
    (skip : bool) :
  writes_no_csv (scrape_county re_search w cn max_pages c skip).
Proof.
  unfold scrape_county.
  destruct (dict_get counties (PyStr.lower cn)) as [slug|]; [|done].
  apply writes_no_csv_bind.
  { destruct skip; [|done]. intros dir. unfold load_cache, read_file.
    unfold mbind, M_bind. by destruct (dir !! cn) as [[ids|]|]. }
  intros cached. apply writes_no_csv_bind; [done|]. intros _.
  apply writes_no_csv_bind.
  { intros dir. unfold log_filters, when, mbind, M_bind.
    by destruct (date_from c), (date_to c), (keywords_truthy _). }
  intros _. apply writes_no_csv_bind; [apply page_loop_no_csv|]. intros acc.
  apply writes_no_csv_bind; [|done].
  destruct (skip && _); [|done]. intros dir.
  unfold save_cache, write_file, when, mbind, M_bind, log, emit.
  by destruct (cache_write w cn) as [|[|]].
Qed.

(** The loop over the counties writes one CSV file for every county it
    adds to the results with at least one record. *)
Lemma counties_loop_csvs (max_pages : nat) (c : criteria) (skip : bool)
    (names : list string) :
  ∀ results dir,
    ∃ new,
      value_of (counties_loop re_search w names max_pages c skip results dir)
      = results ++ new
      ∧ csvs_of
          (trace_of (counties_loop re_search w names max_pages c skip
                       results dir))
        = filter (λ p, p.2 ≠ []) new.
Proof.
  induction names as [|cn names IH]; intros results dir.
  - exists []. by rewrite app_nil_r.
  - cbn [counties_loop].
    pose proof (scrape_county_no_csv cn max_pages c skip dir) as Hnone.
    destruct (scrape_county re_search w cn max_pages c skip dir)
      as [[records d] t] eqn:Hr.
    rewrite trace_of_run in Hnone.
    destruct (IH (results ++ [(cn, records)]) d) as (new & Hv & Hc).
    destruct (counties_loop re_search w names max_pages c skip
                (results ++ [(cn, records)]) d) as [[v d'] t'] eqn:Hrest.
    rewrite value_of_run in Hv. rewrite trace_of_run in Hc. subst v.
    exists ((cn, records) :: new).
    assert (Hcsv : ∃ tc,
               when (negb (bool_decide (records = [])))
                    (save_to_csv records cn) d = (tt, d, tc)
               ∧ csvs_of tc = filter (λ p, p.2 ≠ []) [(cn, records)]).
    { destruct records as [|r records]; eexists; split; reflexivity. }
    destruct Hcsv as (tc & Hcsv & Htc).
    erewrite (bind_eq _ _ dir); [| reflexivity |].
    2:{ eapply bind_eq; [reflexivity|]. eapply bind_eq; [reflexivity|].
        eapply bind_eq; [exact Hr|]. eapply bind_eq; [exact Hcsv|].
        eapply bind_eq; [reflexivity|]. exact Hrest. }
    rewrite value_of_run, trace_of_run, !csvs_of_app, Hnone, Htc, Hc.
    split; [by rewrite <- app_assoc|].
    change ((cn, records) :: new) with ([(cn, records)] ++ new).
    by rewrite filter_app.
Qed.

(** X22. A run over all counties writes a CSV file for exactly the
    counties for which it returns at least one record, in registry order,
    and each file holds the records returned for its county. *)
Theorem csv_per_county_with_records (max_pages : nat) (c : criteria)
    (skip : bool) (dir : gmap string cache_file) :
  csvs_of (trace_of (scrape_all_counties re_search w max_pages c skip dir))
  = filter (λ p, p.2 ≠ [])
      (value_of (scrape_all_counties re_search w max_pages c skip dir)).
Proof.
  unfold scrape_all_counties.
  destruct (counties_loop_csvs max_pages c skip (counties.*1) [] dir)
    as (new & -> & ->).
  done.
Qed.

End CsvFacts.

(** ** The summary report *)

Lemma summary_step_line (report : string) (total : nat)
    (item : string * list record) :
  summary_step (report, total) item
  = (report +:+ summary_line item, (total + length item.2)%nat).
Proof.
  unfold summary_step, summary_line. cbn [fst snd].
  by destruct item as [cn [|r rs]].
Qed.

Lemma concat_cons_empty (s : string) (l : list string) :
  String.concat "" (s :: l) = s +:+ String.concat "" l.
Proof. destruct l; [by rewrite append_nil_r | done]. Qed.

Lemma summary_fold (results : list (string * list record)) (report : string)
    (total : nat) :
  fold_left summary_step results (report, total)
  = (report +:+ String.concat "" (summary_line <$> results),
     (total + sum_list (length <$> results.*2))%nat).
Proof.
  revert report total. induction results as [|item results IH];
    intros report total.
  - cbn. by rewrite append_nil_r, Nat.add_0_r.
  - cbn [fold_left]. rewrite summary_step_line, IH.
    cbn [fmap list_fmap]. rewrite concat_cons_empty, append_assoc.
    f_equal. change (sum_list (length item.2 :: (length <$> results.*2)))
      with (length item.2 + sum_list (length <$> results.*2))%nat. lia.
Qed.

(** X23. The summary report is its head, one line per entry of the
    results in their order, and its foot, and nothing else; a county's
    line shows the check mark exactly when the county has at least one record, and
    the total in the foot is the sum of the record counts of all
    entries. *)
Theorem summary_report_total (results : list (string * list record))
    (timestamp : string) :
  generate_summary_report results timestamp
  = summary_head timestamp
    +:+ String.concat "" (summary_line <$> results)
    +:+ summary_foot (sum_list (length <$> results.*2)).
Proof.
  unfold generate_summary_report, summary_head, summary_foot. cbn zeta.
  rewrite summary_fold. cbn [fst snd]. rewrite Nat.add_0_l.
  by rewrite !append_assoc.
Qed.

(** ** What [scrape_county] returns *)

Section Returned.

Variable re_search : string → string → re_flags → option string.
Variable w : world.

Lemma elem_of_parsed_pages (n page : nat) (url cn : string) (r : record) :
  r ∈ concat (parsed_pages re_search w n page url cn) →
  ∃ p soup, (page ≤ p < page + n)%nat
            ∧ fetch w (page_url url p) = Page soup
            ∧ r ∈ _parse_page re_search soup cn (clock w (page_url url p)).
Proof.
  revert page. induction n as [|n IH]; intros page;
    [by intros ?%elem_of_nil|].
  cbn [parsed_pages].
  destruct (fetch w (page_url url page)) as [| |soup] eqn:Hf;
    [by intros ?%elem_of_nil | |].
  - intros (p & soup & Hp & Hsoup & Hr)%IH. exists p, soup.
    split_and!; try done; lia.
  - destruct (_parse_page re_search soup cn (clock w (page_url url page)))
      as [|r0 rs] eqn:Hparse; [by intros ?%elem_of_nil|].
    cbn [concat]. intros [Hr|Hr]%elem_of_app.
    + exists page, soup.
      split_and!; first [lia | done | by rewrite Hparse].
    + apply IH in Hr as (p & soup' & Hp & Hsoup & Hr). exists p, soup'.
      split_and!; try done; lia.
Qed.

(** X24. Every record [scrape_county] returns was built from a named
    entry of a page it fetched, within the page limit: its name is not
    empty, its county is the title-cased county name that was passed,
    its id is not among the ids the run started from, and it passes the
    date and keyword checks. *)
Theorem returned_records_sound (cn slug : string) (max_pages : nat)
    (c : criteria) (skip : bool) (dir : gmap string cache_file)
    (r : record) :
  dict_get counties (PyStr.lower cn) = Some slug →
  r ∈ value_of (scrape_county re_search w cn max_pages c skip dir) →
  (∃ p soup b i,
     (1 ≤ p ≤ max_pages)%nat
     ∧ fetch w (page_url (county_url slug) p) = Page soup
     ∧ Block b ∈ select_entries soup
     ∧ r = build_record re_search b cn
             (clock w (page_url (county_url slug) p) i))
  ∧ name r ≠ ""
  ∧ county r = PyStr.title cn
  ∧ (generate_record_id r ∉ start_ids dir cn skip)
  ∧ date_check c r = true
  ∧ charges_check c r = true.
Proof.
  intros Hslug. rewrite (scrape_county_filter _ _ _ _ _ _ _ _ Hslug).
  intros [(Hc & Hd & Hk)%record_passes_true Hr]%list_elem_of_filter.
  apply elem_of_parsed_pages in Hr as (p & soup & Hp & Hsoup & Hr).
  apply elem_of_parse_entries in Hr as (b & i & Hb & -> & Hname).
  split_and!; [|done|done| |done|done].
  - exists p, soup, b, i. split_and!; try done; lia.
  - unfold in_cache in Hc. by apply bool_decide_eq_false in Hc.
Qed.

End Returned.

(** X24 at the first record of the two-page site. *)
Lemma returned_records_sound_witness :
  name (build_record re_search_unlabelled
          (mk_block (Some ["John Doe"]) None "John Doe") "nelson"
          "2024-01-02 09:00:00") ≠ "".
Proof.
  apply (returned_records_sound re_search_unlabelled two_page_world "nelson"
           "nelson-county" 5 no_criteria true ∅
           (build_record re_search_unlabelled
              (mk_block (Some ["John Doe"]) None "John Doe") "nelson"
              "2024-01-02 09:00:00")).
  - reflexivity.
  - vm_compute. left.
Defined.
